(** * Root-finding core of the Numerical-Analysis-App

    A shallow embedding of [src/src/core/methods/*.py],
    [src/src/core/solver.py] and [src/src/core/history.py].

    Python floats are modelled by [fl]: an exact rational, NaN, or one of
    the two infinities.  Arithmetic is exact (no rounding, no overflow to
    an infinity and no underflow to zero);
    NaN propagates and every comparison involving NaN is false, as in
    Python.  True division by a zero float raises [ZeroDivisionError], so
    it lives in the error monad [res].  Formatting of numbers into strings
    ([str(x)], [f"{x:.6f}"]) is left abstract in the class [PyFormat]. *)

From Stdlib Require Import QArith Qabs Qround ZArith Ascii String List Bool Lia.
From Stdlib Require Import Reals.
From Stdlib Require Import Lqa.
Import ListNotations.
Open Scope string_scope.

(* ------------------------------------------------------------------ *)
(** ** Python floats *)

Inductive fl : Type :=
| Fin (q : Q)
| NaN
| PInf
| NInf.

Definition is_nan (x : fl) : bool :=
  match x with NaN => true | _ => false end.

Definition is_inf (x : fl) : bool :=
  match x with PInf | NInf => true | _ => false end.

Definition fneg (x : fl) : fl :=
  match x with
  | Fin q => Fin (- q)
  | NaN => NaN
  | PInf => NInf
  | NInf => PInf
  end.

Definition fadd (x y : fl) : fl :=
  match x, y with
  | NaN, _ | _, NaN => NaN
  | PInf, NInf | NInf, PInf => NaN
  | PInf, _ | _, PInf => PInf
  | NInf, _ | _, NInf => NInf
  | Fin a, Fin b => Fin (a + b)
  end.

Definition fsub (x y : fl) : fl := fadd x (fneg y).

Definition Qltb (a b : Q) : bool := negb (Qle_bool b a).

(** sign of a non-zero finite value: [true] for negative *)
Definition qneg (q : Q) : bool := Qltb q 0.

Definition inf_of (neg : bool) : fl := if neg then NInf else PInf.

Definition fmul (x y : fl) : fl :=
  match x, y with
  | NaN, _ | _, NaN => NaN
  | Fin a, Fin b => Fin (a * b)
  | Fin a, PInf | PInf, Fin a =>
      if Qeq_bool a 0 then NaN else inf_of (qneg a)
  | Fin a, NInf | NInf, Fin a =>
      if Qeq_bool a 0 then NaN else inf_of (negb (qneg a))
  | PInf, PInf | NInf, NInf => PInf
  | PInf, NInf | NInf, PInf => NInf
  end.

Definition fabs (x : fl) : fl :=
  match x with
  | Fin q => Fin (Qabs q)
  | NaN => NaN
  | _ => PInf
  end.

(** [x < y] on Python floats *)
Definition flt (x y : fl) : bool :=
  match x, y with
  | NaN, _ | _, NaN => false
  | NInf, NInf => false
  | NInf, _ => true
  | _, NInf => false
  | PInf, _ => false
  | _, PInf => true
  | Fin a, Fin b => Qltb a b
  end.

(** [x == y] on Python floats *)
Definition feq (x y : fl) : bool :=
  match x, y with
  | Fin a, Fin b => Qeq_bool a b
  | PInf, PInf | NInf, NInf => true
  | _, _ => false
  end.

Definition fle (x y : fl) : bool := flt x y || feq x y.
Definition fgt (x y : fl) : bool := flt y x.
Definition fge (x y : fl) : bool := fle y x.

Definition fl_of_Z (z : Z) : fl := Fin (inject_Z z).

(** the literals [1e-10], [1e-9], [1e-6], [1e-15], [1e15] *)
Definition e_10 : fl := Fin (1 # 10000000000).
Definition e_9 : fl := Fin (1 # 1000000000).
Definition e_6 : fl := Fin (1 # 1000000).
Definition e_15 : fl := Fin (1 # 1000000000000000).
Definition big_15 : fl := Fin (inject_Z 1000000000000000).

(* ------------------------------------------------------------------ *)
(** ** Exceptions and the error monad *)

Inductive exn : Type :=
| ValueError
| TypeError
| ZeroDivisionError
| OverflowError
| RuntimeWarning
| RuntimeError
| NameError
| UnboundLocalError
| OtherException (name : string).

Inductive res (A : Type) : Type :=
| Ok (a : A)
| Err (e : exn).
Arguments Ok {A} a.
Arguments Err {A} e.

Definition bind {A B} (m : res A) (k : A -> res B) : res B :=
  match m with
  | Ok a => k a
  | Err e => Err e
  end.

Notation "'let*' x := m 'in' k" := (bind m (fun x => k))
  (at level 200, x name, m at level 100, k at level 200).

(** Python true division [x / y]: a zero divisor raises. *)
Definition fdiv (x y : fl) : res fl :=
  match y with
  | Fin b =>
      if Qeq_bool b 0 then Err ZeroDivisionError
      else match x with
           | Fin a => Ok (Fin (a / b))
           | NaN => Ok NaN
           | PInf => Ok (inf_of (qneg b))
           | NInf => Ok (inf_of (negb (qneg b)))
           end
  | NaN => Ok NaN
  | PInf | NInf =>
      match x with
      | Fin _ => Ok (Fin 0)
      | _ => Ok NaN
      end
  end.

(* ------------------------------------------------------------------ *)
(** ** Formatting, trace rows and the shared helpers of [base.py] *)

(** Python's rendering of numbers into text, left abstract. *)
Class PyFormat : Type := {
  py_str : fl -> string;          (** [str(x)], [f"{x}"] *)
  py_fixed : Z -> fl -> string;   (** [f"{x:.{d}f}"] *)
  py_exp : Z -> fl -> string;     (** [f"{x:.{d}e}"] *)
  py_int : Z -> string;           (** [str(i)] *)
  py_exn : exn -> string          (** [str(e)] *)
}.

(** A trace row is an ordered mapping from labels to display values. *)
Inductive cell : Type :=
| CInt (z : Z)
| CNum (x : fl)
| CStr (s : string).

Definition row : Type := list (string * cell).

(** [OrderedDict([("Message", m), ("Status", st), ("Details", d)])] *)
Definition msg_row (m st d : string) : row :=
  [("Message", CStr m); ("Status", CStr st); ("Details", CStr d)].

(** Python's [round(q)]: nearest integer, ties to even. *)
Definition round_half_even (q : Q) : Z :=
  let fl0 := Qfloor q in
  let d := q - inject_Z fl0 in
  if Qltb d (1 # 2) then fl0
  else if Qltb (1 # 2) d then (fl0 + 1)%Z
  else if Z.even fl0 then fl0 else (fl0 + 1)%Z.

(** [round(value * 10**dp) / 10**dp] on a finite value; NaN and the
    infinities are returned unchanged ([NumericalMethodBase._round_value]). *)
Definition round_value (v : fl) (dp : Z) : fl :=
  match v with
  | Fin q =>
      let m := Qpower (inject_Z 10) dp in
      Fin (inject_Z (round_half_even (q * m)) / m)
  | _ => v
  end.

Fixpoint rstrip_rev (c : Ascii.ascii) (l : list Ascii.ascii) : list Ascii.ascii :=
  match l with
  | c' :: t => if Ascii.eqb c c' then rstrip_rev c t else l
  | [] => []
  end.

(** [s.rstrip(c)] for a single character [c] *)
Definition rstrip (c : Ascii.ascii) (s : string) : string :=
  string_of_list_ascii (rev (rstrip_rev c (rev (list_ascii_of_string s)))).

(** The error column: the string ["---"] on the first iteration, a float
    afterwards. *)
Inductive errv : Type :=
| NoErr
| ErrV (x : fl).

(** [NumericalMethodBase._format_error] *)
Definition format_error `{PyFormat} (e : errv) (dp : Z) : string :=
  match e with
  | NoErr => "---"
  | ErrV x =>
      if (dp <? 0)%Z then py_str x ++ "%"
      else
        let k := Z.min 3 dp in
        rstrip "."%char (rstrip "0"%char (py_fixed k (round_value x k))) ++ "%"
  end.

(** [NumericalMethodBase._check_convergence]: an unknown operator raises
    [ValueError] inside the [try], which answers [False]. *)
Definition check_convergence (error eps : fl) (op : string) : bool :=
  if String.eqb op "<=" then fle error eps
  else if String.eqb op ">=" then fge error eps
  else if String.eqb op "<" then flt error eps
  else if String.eqb op ">" then fgt error eps
  else if String.eqb op "=" then flt (fabs (fsub error eps)) e_10
  else false.

(* ------------------------------------------------------------------ *)
(** ** [for i in range(lo, lo + n)] with early [return] *)

(** One pass of a loop body either continues with a new state or returns. *)
Inductive step (S O : Type) : Type :=
| Continue (s : S)
| Return (o : O).
Arguments Continue {S O} s.
Arguments Return {S O} o.

(** Runs the body for [i = lo, lo+1, ...] at most [n] times.  The result is
    the state after the loop ([inl]) or the value returned from inside it
    ([inr]); the [nat] counts the passes through the body. *)
Fixpoint for_range {St Out : Type} (body : Z -> St -> res (step St Out))
    (i : Z) (n : nat) (s : St) : res (St + Out) * nat :=
  match n with
  | O => (Ok (inl s), O)
  | S n' =>
      match body i s with
      | Ok (Continue s') =>
          let (r, k) := for_range body (i + 1)%Z n' s' in (r, S k)
      | Ok (Return o) => (Ok (inr o), 1%nat)
      | Err e => (Err e, 1%nat)
      end
  end.

(* ------------------------------------------------------------------ *)
(** ** [BisectionMethod.solve] (bisection.py)

    [f] is the evaluator built by [_create_function]; it returns a float or
    raises.  The parameters [stop_criteria], [consecutive_check] and
    [consecutive_tolerance] only feed [error_value] and [previous_error],
    which are written but never read, so they are left out. *)

Module Bisection.

Record state : Type := mk {
  xl : fl; xu : fl; f_xl : fl; f_xu : fl;
  xr : option fl;   (** [None] while the local [xr] is still unbound *)
  xr_old : fl;
  error : errv;
  table : list row
}.

Section Solve.
Context `{PyFormat}.

(** the five operator branches comparing the relative error ([eps > 1]) *)
Definition rel_stop (op : string) (rel eps : fl) : option row :=
  let m sym := "Stopped by Epsilon: Relative Error " ++ py_fixed 6 rel ++ "% "
               ++ sym ++ " " ++ py_str eps ++ "%" in
  if String.eqb op "<=" then
    if fle rel eps then Some (msg_row (m "<=") "CONVERGED"
                               ("Achieved desired accuracy of " ++ py_str eps ++ "%"))
    else None
  else if String.eqb op ">=" then
    if fge rel eps then Some (msg_row (m ">=") "STOPPED"
                               ("Error threshold " ++ py_str eps ++ "% reached"))
    else None
  else if String.eqb op "<" then
    if flt rel eps then Some (msg_row (m "<") "CONVERGED"
                              ("Achieved desired accuracy of " ++ py_str eps ++ "%"))
    else None
  else if String.eqb op ">" then
    if fgt rel eps then Some (msg_row (m ">") "STOPPED"
                              ("Error exceeds threshold " ++ py_str eps ++ "%"))
    else None
  else if String.eqb op "=" then
    if flt (fabs (fsub rel eps)) e_10 then
      Some (msg_row (m "=") "EXACT"
              ("Error exactly matches threshold " ++ py_str eps ++ "%"))
    else None
  else None.

(** the five operator branches comparing the absolute difference *)
Definition abs_stop (op : string) (i : Z) (abs_diff eps : fl) : option row :=
  let m sym := "Stopped by Epsilon: |x" ++ py_int (i + 1) ++ " - x" ++ py_int i
               ++ "| " ++ sym ++ " " ++ py_str eps in
  if String.eqb op "<=" then
    if fle abs_diff eps then Some (msg_row (m "<=") "CONVERGED"
                                    ("Achieved desired accuracy of " ++ py_str eps))
    else None
  else if String.eqb op ">=" then
    if fge abs_diff eps then Some (msg_row (m ">=") "STOPPED"
                                    ("Error threshold " ++ py_str eps ++ " reached"))
    else None
  else if String.eqb op "<" then
    if flt abs_diff eps then Some (msg_row (m "<") "CONVERGED"
                                   ("Achieved desired accuracy of " ++ py_str eps))
    else None
  else if String.eqb op ">" then
    if fgt abs_diff eps then Some (msg_row (m ">") "STOPPED"
                                   ("Error exceeds threshold " ++ py_str eps))
    else None
  else if String.eqb op "=" then
    if flt (fabs (fsub abs_diff eps)) e_10 then
      Some (msg_row (m "=") "EXACT"
              ("Error exactly matches threshold " ++ py_str eps))
    else None
  else None.

(** [rel_error = abs_diff / abs(xr) * 100 if abs(xr) > 1e-10 else abs_diff] *)
Definition rel_error (abs_diff xr : fl) : res fl :=
  if fgt (fabs xr) e_10 then
    let* q := fdiv abs_diff (fabs xr) in Ok (fmul q (Fin 100))
  else Ok abs_diff.

(** the epsilon test of lines 144-242 *)
Definition eps_stop (eps : fl) (op : string) (stop_by_eps : bool)
    (i : Z) (abs_diff xr : fl) : res (option row) :=
  if (0 <? i)%Z && stop_by_eps then
    if fgt eps (Fin 1) then
      let* rel := rel_error abs_diff xr in Ok (rel_stop op rel eps)
    else Ok (abs_stop op i abs_diff eps)
  else Ok None.

(** one pass of the [for i in range(max_iter)] loop *)
Definition body (f : fl -> res fl) (eps : fl) (op : string)
    (stop_by_eps : bool) (dp : Z) (i : Z) (s : state)
    : res (step state (option fl * list row)) :=
  let* xr_old := (if (0 <? i)%Z then
                    match s.(xr) with Some x => Ok x | None => Err UnboundLocalError end
                  else Ok s.(xr_old)) in
  let* xr := fdiv (fadd s.(xl) s.(xu)) (Fin 2) in
  let* f_xr := f xr in
  let abs_diff := fabs (fsub xr xr_old) in
  let* error := (if (0 <? i)%Z then
                   if flt (fabs xr) e_10 then Ok (ErrV abs_diff)
                   else let* q := fdiv abs_diff (fabs xr) in Ok (ErrV (fmul q (Fin 100)))
                 else Ok s.(error)) in
  let r : row := [("Iteration", CInt i);
                  ("Xl", CNum (round_value s.(xl) dp));
                  ("Xu", CNum (round_value s.(xu) dp));
                  ("Xr", CNum (round_value xr dp));
                  ("f(Xr)", CNum (round_value f_xr dp));
                  ("Error %", CStr (format_error error dp))] in
  if flt (fabs f_xr) e_10 then
    Ok (Return (Some xr,
                app s.(table) [r; msg_row "Exact root found (within numerical precision)"
                                   "SUCCESS"
                                   ("f(x) ≈ 0 at x = " ++ py_str (round_value xr dp))]))
  else
    let* stop := eps_stop eps op stop_by_eps i abs_diff xr in
    match stop with
    | Some m => Ok (Return (Some xr, app s.(table) [r; m]))
    | None =>
        if flt (fmul s.(f_xl) f_xr) (Fin 0) then
          Ok (Continue (mk s.(xl) xr s.(f_xl) f_xr (Some xr) xr_old error
                          (app s.(table) [app r [("Interval Update", CStr "Upper bound updated")]])))
        else
          Ok (Continue (mk xr s.(xu) f_xr s.(f_xu) (Some xr) xr_old error
                          (app s.(table) [app r [("Interval Update", CStr "Lower bound updated")]])))
    end.

(** [BisectionMethod.solve]; the [nat] counts the loop iterations. *)
Definition solve (f : fl -> res fl) (xl0 xu0 eps : fl) (op : string)
    (max_iter : Z) (stop_by_eps : bool) (dp : Z)
    : res (option fl * list row) * nat :=
  match (let* a := f xl0 in let* b := f xu0 in Ok (a, b)) with
  | Err e => (Err e, O)
  | Ok (f_xl0, f_xu0) =>
      if fgt (fmul f_xl0 f_xu0) (Fin 0) then
        (Ok (None, [[("Error", CStr "The interval does not bracket a root. Ensure f(xl) and f(xu) have opposite signs.");
                     ("Status", CStr "ERROR");
                     ("Details", CStr ("f(xl) = " ++ py_str f_xl0 ++ " and f(xu) = "
                                       ++ py_str f_xu0 ++ " have the same sign"))]]), O)
      else if flt (fabs f_xl0) e_10 then
        (Ok (Some xl0, [msg_row ("Lower bound " ++ py_str xl0 ++ " is already a root")
                                "SUCCESS" "f(xl) ≈ 0"]), O)
      else if flt (fabs f_xu0) e_10 then
        (Ok (Some xu0, [msg_row ("Upper bound " ++ py_str xu0 ++ " is already a root")
                                "SUCCESS" "f(xu) ≈ 0"]), O)
      else
        let (r, k) := for_range (body f eps op stop_by_eps dp) 0
                        (Z.to_nat max_iter)
                        (mk xl0 xu0 f_xl0 f_xu0 None (Fin 0) NoErr []) in
        (match r with
         | Err e => Err e
         | Ok (inr o) => Ok o
         | Ok (inl s) =>
             match s.(xr) with
             | None => Err UnboundLocalError
             | Some x =>
                 Ok (Some x, app s.(table)
                      [msg_row ("Stopped by reaching maximum iterations: " ++ py_int max_iter)
                               "MAX_ITERATIONS"
                               "Consider increasing max_iter for more precision"])
             end
         end, k)
  end.

End Solve.
End Bisection.

(* ------------------------------------------------------------------ *)
(** ** [FalsePositionMethod.solve] (false_position.py) *)

Module FalsePosition.

Record state : Type := mk {
  xl : fl; xu : fl; f_xl : fl; f_xu : fl;
  xr : option fl;
  xr_old : fl;
  error : errv;
  table : list row
}.

Section Solve.
Context `{PyFormat}.

Definition msg (m : string) : row := [("Message", CStr m)].

(** the epsilon test of lines 362-383: absolute difference only *)
Definition eps_stop (eps : fl) (op : string) (stop_by_eps : bool)
    (i : Z) (abs_diff : fl) : option row :=
  let m sym := "Stopped by Epsilon: |x" ++ py_int (i + 1) ++ " - x" ++ py_int i
               ++ "| " ++ sym ++ " " ++ py_str eps in
  if (0 <? i)%Z && stop_by_eps then
    if String.eqb op "<=" then (if fle abs_diff eps then Some (msg (m "<=")) else None)
    else if String.eqb op ">=" then (if fge abs_diff eps then Some (msg (m ">=")) else None)
    else if String.eqb op "<" then (if flt abs_diff eps then Some (msg (m "<")) else None)
    else if String.eqb op ">" then (if fgt abs_diff eps then Some (msg (m ">")) else None)
    else if String.eqb op "=" then
      (if flt (fabs (fsub abs_diff eps)) e_10 then Some (msg (m "=")) else None)
    else None
  else None.

Definition body (f : fl -> res fl) (eps : fl) (op : string)
    (stop_by_eps : bool) (dp : Z) (i : Z) (s : state)
    : res (step state (option fl * list row)) :=
  let* xr_old := (if (0 <? i)%Z then
                    match s.(xr) with Some x => Ok x | None => Err UnboundLocalError end
                  else Ok s.(xr_old)) in
  (* xr = xl - (f_xl * (xu - xl)) / (f_xu - f_xl) *)
  let* q := fdiv (fmul s.(f_xl) (fsub s.(xu) s.(xl))) (fsub s.(f_xu) s.(f_xl)) in
  let xr := fsub s.(xl) q in
  let* f_xr := f xr in
  let abs_diff := fabs (fsub xr xr_old) in
  let* error := (if (0 <? i)%Z then
                   if flt (fabs xr) e_10 then Ok (ErrV abs_diff)
                   else let* q := fdiv abs_diff (fabs xr) in Ok (ErrV (fmul q (Fin 100)))
                 else Ok s.(error)) in
  let r : row := [("Iteration", CInt i);
                  ("Xl", CNum (round_value s.(xl) dp));
                  ("Xu", CNum (round_value s.(xu) dp));
                  ("Xr", CNum (round_value xr dp));
                  ("f(Xr)", CNum (round_value f_xr dp));
                  ("Error %", CStr (format_error error dp))] in
  if flt (fabs f_xr) e_10 then
    Ok (Return (Some xr, app s.(table) [r; msg "Exact root found (within numerical precision)"]))
  else
    match eps_stop eps op stop_by_eps i abs_diff with
    | Some m => Ok (Return (Some xr, app s.(table) [r; m]))
    | None =>
        if flt (fmul s.(f_xl) f_xr) (Fin 0) then
          Ok (Continue (mk s.(xl) xr s.(f_xl) f_xr (Some xr) xr_old error (app s.(table) [r])))
        else
          Ok (Continue (mk xr s.(xu) f_xr s.(f_xu) (Some xr) xr_old error (app s.(table) [r])))
    end.

Definition solve (f : fl -> res fl) (xl0 xu0 eps : fl) (op : string)
    (max_iter : Z) (stop_by_eps : bool) (dp : Z)
    : res (option fl * list row) * nat :=
  match (let* a := f xl0 in let* b := f xu0 in Ok (a, b)) with
  | Err e => (Err e, O)
  | Ok (f_xl0, f_xu0) =>
      if fgt (fmul f_xl0 f_xu0) (Fin 0) then
        (Ok (None, [[("Error", CStr "The interval does not bracket a root")]]), O)
      else if flt (fabs f_xl0) e_10 then
        (Ok (Some xl0, [msg ("Lower bound " ++ py_str xl0 ++ " is already a root")]), O)
      else if flt (fabs f_xu0) e_10 then
        (Ok (Some xu0, [msg ("Upper bound " ++ py_str xu0 ++ " is already a root")]), O)
      else
        let (r, k) := for_range (body f eps op stop_by_eps dp) 0
                        (Z.to_nat max_iter)
                        (mk xl0 xu0 f_xl0 f_xu0 None (Fin 0) NoErr []) in
        (match r with
         | Err e => Err e
         | Ok (inr o) => Ok o
         | Ok (inl s) =>
             match s.(xr) with
             | None => Err UnboundLocalError
             | Some x =>
                 Ok (Some x, app s.(table)
                      [msg ("Stopped by reaching maximum iterations: " ++ py_int max_iter)])
             end
         end, k)
  end.

End Solve.
End FalsePosition.

(* ------------------------------------------------------------------ *)
(** ** [SecantMethod.solve] (secant.py) *)

Module Secant.

Record state : Type := mk {
  x0 : fl; x1 : fl; f_x0 : fl; f_x1 : fl;
  table : list row
}.

(** the exception classes of the inner [except] around [f(x_next)] *)
Definition inner_caught (e : exn) : bool :=
  match e with
  | ValueError | ZeroDivisionError | OverflowError | RuntimeError => true
  | _ => false
  end.

Section Solve.
Context `{PyFormat}.

(** the [if/elif] chain of lines 190-204 ([eps > 1]) *)
Definition rel_hit (op : string) (rel eps : fl) : option string :=
  let m sym := "Relative Error " ++ py_fixed 6 rel ++ "% " ++ sym ++ " " ++ py_str eps ++ "%" in
  if String.eqb op "<=" && fle rel eps then Some (m "<=")
  else if String.eqb op ">=" && fge rel eps then Some (m ">=")
  else if String.eqb op "<" && flt rel eps then Some (m "<")
  else if String.eqb op ">" && fgt rel eps then Some (m ">")
  else if String.eqb op "=" && flt (fabs (fsub rel eps)) e_10 then Some (m "=")
  else None.

(** the [if/elif] chain of lines 219-233 ([eps <= 1]) *)
Definition abs_hit (op : string) (i : Z) (abs_diff eps : fl) : option string :=
  let m sym := "|x" ++ py_int (i + 1) ++ " - x" ++ py_int i ++ "| " ++ sym ++ " " ++ py_str eps in
  if String.eqb op "<=" && fle abs_diff eps then Some (m "<=")
  else if String.eqb op ">=" && fge abs_diff eps then Some (m ">=")
  else if String.eqb op "<" && flt abs_diff eps then Some (m "<")
  else if String.eqb op ">" && fgt abs_diff eps then Some (m ">")
  else if String.eqb op "=" && flt (fabs (fsub abs_diff eps)) e_10 then Some (m "=")
  else None.

(** [rel_error = abs_diff / abs(x_next) * 100 if abs(x_next) > 1e-10 else abs_diff] *)
Definition rel_error (abs_diff x_next : fl) : res fl :=
  if fgt (fabs x_next) e_10 then
    let* q := fdiv abs_diff (fabs x_next) in Ok (fmul q (Fin 100))
  else Ok abs_diff.

(** the epsilon test of lines 178-242 *)
Definition eps_stop (eps : fl) (op : string) (stop_by_eps : bool)
    (i : Z) (x_next x1 : fl) : res (option row) :=
  if stop_by_eps then
    let abs_diff := fabs (fsub x_next x1) in
    if fgt eps (Fin 1) then
      let* rel := rel_error abs_diff x_next in
      Ok (match rel_hit op rel eps with
          | Some m => Some (msg_row ("Stopped by Epsilon: " ++ m) "CONVERGED"
                                    "Achieved desired accuracy based on relative error")
          | None => None
          end)
    else
      Ok (match abs_hit op i abs_diff eps with
          | Some m => Some (msg_row ("Stopped by Epsilon: " ++ m) "CONVERGED"
                                    "Achieved desired accuracy based on absolute error")
          | None => None
          end)
  else Ok None.

(** one pass of [for i in range(1, max_iter + 1)] *)
Definition body (f : fl -> res fl) (eps : fl) (op : string) (max_iter : Z)
    (stop_by_eps : bool) (dp : Z) (i : Z) (s : state)
    : res (step state (option fl * list row)) :=
  if flt (fabs (fsub s.(f_x1) s.(f_x0))) e_10 then
    Ok (Return (Some s.(x1), app s.(table)
      [[("Warning", CStr ("Secant denominator (f(x1) - f(x0)) is too close to zero: "
                          ++ py_str (fsub s.(f_x1) s.(f_x0))));
        ("Status", CStr "ZERO_DENOMINATOR");
        ("Details", CStr "The function values at x0 and x1 are too close, causing numerical instability")]]))
  else
    let* q := fdiv (fmul s.(f_x1) (fsub s.(x1) s.(x0))) (fsub s.(f_x1) s.(f_x0)) in
    let x_next := fsub s.(x1) q in
    match f x_next with
    | Err e =>
        if inner_caught e then
          Ok (Return (Some s.(x1), app s.(table)
            [[("Error", CStr ("Function evaluation error at x = " ++ py_str x_next));
              ("Status", CStr "EVALUATION_ERROR");
              ("Details", CStr (py_exn e))]]))
        else Err e
    | Ok f_x_next =>
        if is_nan x_next || is_inf x_next then
          Ok (Return (Some s.(x1), app s.(table)
            [[("Error", CStr ("Invalid value: " ++ (if is_nan x_next then "NaN" else "Infinity")));
              ("Status", CStr "INVALID_VALUE");
              ("Details", CStr "The method has diverged or encountered a numeric issue")]]))
        else
          let* error := (if flt (fabs x_next) e_10 then Ok (fabs (fsub x_next s.(x1)))
                         else let* d := fdiv (fsub x_next s.(x1)) x_next in
                              Ok (fmul (fabs d) (Fin 100))) in
          let r : row := [("Iteration", CInt i);
                          ("Xi-1", CNum (round_value s.(x0) dp));
                          ("Xi", CNum (round_value s.(x1) dp));
                          ("f(Xi-1)", CNum (round_value s.(f_x0) dp));
                          ("f(Xi)", CNum (round_value s.(f_x1) dp));
                          ("Xi+1", CNum (round_value x_next dp));
                          ("f(Xi+1)", CNum (round_value f_x_next dp));
                          ("Error %", CStr (format_error (ErrV error) dp));
                          ("Status", CStr (if (i <? max_iter)%Z then "Searching..."
                                           else "Max iterations reached"))] in
          if flt (fabs f_x_next) e_10 then
            Ok (Return (Some x_next, app s.(table)
              [r; msg_row "Exact root found (within numerical precision)" "SUCCESS"
                          ("f(x) ≈ 0 at x = " ++ py_str (round_value x_next dp))]))
          else
            let* stop := eps_stop eps op stop_by_eps i x_next s.(x1) in
            match stop with
            | Some m => Ok (Return (Some x_next, app s.(table) [r; m]))
            | None => Ok (Continue (mk s.(x1) x_next s.(f_x1) f_x_next (app s.(table) [r])))
            end
    end.

(** everything inside the outer [try] *)
Definition solve_try (f : fl -> res fl) (xa xb eps : fl) (op : string)
    (max_iter : Z) (stop_by_eps : bool) (dp : Z)
    : res (option fl * list row) * nat :=
  match (let* a := f xa in let* b := f xb in Ok (a, b)) with
  | Err e => (Err e, O)
  | Ok (fa, fb) =>
      if flt (fabs fa) e_10 then
        (Ok (Some xa, [msg_row ("First initial guess " ++ py_str xa ++ " is already a root")
                               "SUCCESS" "f(x0) ≈ 0"]), O)
      else if flt (fabs fb) e_10 then
        (Ok (Some xb, [msg_row ("Second initial guess " ++ py_str xb ++ " is already a root")
                               "SUCCESS" "f(x1) ≈ 0"]), O)
      else
        let initial_row : row :=
          [("Initial Points", CStr "Values");
           ("x0", CNum (round_value xa dp)); ("f(x0)", CNum (round_value fa dp));
           ("x1", CNum (round_value xb dp)); ("f(x1)", CNum (round_value fb dp))] in
        let row0 : row :=
          [("Iteration", CInt 0);
           ("Xi-1", CNum (round_value xa dp)); ("Xi", CNum (round_value xb dp));
           ("f(Xi-1)", CNum (round_value fa dp)); ("f(Xi)", CNum (round_value fb dp));
           ("Xi+1", CStr "---"); ("Error %", CStr "---"); ("Status", CStr "Starting...")] in
        let (r, k) := for_range (body f eps op max_iter stop_by_eps dp) 1
                        (Z.to_nat max_iter) (mk xa xb fa fb [initial_row; row0]) in
        (match r with
         | Err e => Err e
         | Ok (inr o) => Ok o
         | Ok (inl s) =>
             Ok (Some s.(x1), app s.(table)
                  [msg_row ("Maximum iterations reached (" ++ py_int max_iter ++ ")")
                           "MAX_ITERATIONS"
                           "Consider increasing the maximum iterations or trying different initial points"])
         end, k)
  end.

(** [SecantMethod.solve]: the outer [except Exception] turns any exception
    into a single error row. *)
Definition solve (f : fl -> res fl) (xa xb eps : fl) (op : string)
    (max_iter : Z) (stop_by_eps : bool) (dp : Z)
    : (option fl * list row) * nat :=
  let (r, k) := solve_try f xa xb eps op max_iter stop_by_eps dp in
  (match r with
   | Ok o => o
   | Err e => (None, [[("Error", CStr ("An unexpected error occurred: " ++ py_exn e));
                       ("Status", CStr "ERROR");
                       ("Details", CStr "Check your inputs and try again")]])
   end, k).

End Solve.
End Secant.

(* ------------------------------------------------------------------ *)
(** ** [NewtonRaphsonMethod.solve] (newton_raphson.py)

    [f] and [f'] are the callables built by the class's own
    [_create_function] and [_create_derivative]: they may return NaN or an
    infinity, or raise.  Both builders catch their own errors and return
    [lambda x: float('nan')], so the "Failed to create" branch is not
    reachable and the callables are taken as inputs. *)

Module NewtonRaphson.

Inductive status : Type :=
| CONVERGED | DIVERGED | MAX_ITERATIONS | ZERO_DERIVATIVE
| NUMERICAL_ERROR | DOMAIN_ERROR | OSCILLATING | ERROR.

(** [NewtonRaphsonResult]; unpacking it as a tuple yields
    [(root, iterations)]. *)
Record result : Type := mkResult {
  root : option fl;
  iterations : list row;
  status_of : status;
  messages : list string;
  iterations_table : list (string * row)   (** the [OrderedDict] [table] *)
}.

(** [table[k] = v] on an [OrderedDict]: an existing key keeps its place. *)
Fixpoint odict_set (k : string) (v : row) (t : list (string * row)) : list (string * row) :=
  match t with
  | [] => [(k, v)]
  | (k', v') :: t' => if String.eqb k k' then (k, v) :: t' else (k', v') :: odict_set k v t'
  end.

Record state : Type := mk {
  x_current : fl;
  iter_count : Z;
  error_display : string;
  consecutive_count : Z;
  previous_values : list fl;
  table : list (string * row)
}.

Section Solve.
Context `{PyFormat}.

Definition key (n : Z) : string := "Iteration " ++ py_int n.

(** [NewtonRaphsonMethod._round_value] *)
Definition round_cell (v : fl) (dp : Z) : cell :=
  match v with
  | NaN => CStr "NaN"
  | PInf => CStr "Inf"
  | NInf => CStr "-Inf"
  | Fin _ => CNum (round_value v dp)
  end.

(** [f"{self._round_value(v, dp)}"] *)
Definition round_str (v : fl) (dp : Z) : string :=
  match round_cell v dp with
  | CStr s => s
  | CNum x => py_str x
  | CInt z => py_int z
  end.

(** [NewtonRaphsonMethod._format_error] on a float *)
Definition nr_format_error (e : fl) (dp : Z) : string :=
  match e with
  | NaN => "NaN"
  | PInf => "Inf%"
  | NInf => "-Inf%"
  | Fin _ => py_fixed dp e ++ "%"
  end.

(** [NewtonRaphsonMethod._check_convergence] on a float error *)
Definition nr_check_convergence (error eps : fl) (op : string) : bool :=
  if is_nan error || is_inf error then false
  else if String.eqb op "<=" then fle error eps
  else if String.eqb op ">=" then fge error eps
  else if String.eqb op "<" then flt error eps
  else if String.eqb op ">" then fgt error eps
  else if String.eqb op "=" then flt (fabs (fsub error eps)) e_9
  else false.

(** the relative error of lines 394-400 *)
Definition relative_error (abs_diff x_current : fl) : res fl :=
  if fgt (fabs x_current) e_15 then
    let* q := fdiv abs_diff (fabs x_current) in Ok (fmul q (Fin 100))
  else if flt abs_diff e_15 then Ok (Fin 0)
  else Ok PInf.

Definition error_for_check (stop_criteria : string) (abs_diff rel fx : fl) : fl :=
  if String.eqb stop_criteria "absolute" then abs_diff
  else if String.eqb stop_criteria "relative" then rel
  else if String.eqb stop_criteria "function" then fabs fx
  else rel.

(** the [except Exception] handler of the loop body *)
Definition on_error (ic : Z) (e : exn) (t : list (string * row)) : result :=
  let m := "Error in iteration " ++ py_int ic ++ ": " ++ py_exn e in
  mkResult None [] ERROR [m]
    (odict_set (key ic) [("Iteration", CInt ic); ("Error", CStr "Error"); ("Details", CStr m)] t).

(** Steps 1-3 of one iteration: evaluate [f] and [f'], the zero-derivative
    and NaN guards, then the Newton update.  [inl] is a terminal result,
    [inr (fx, fpx, x_new)] carries on to the checks that follow. *)
Definition newton_step (f f' : fl -> res fl) (dp : Z) (ic : Z) (x_old : fl)
    (error_display : string) (t : list (string * row))
    : res (result + (fl * fl * fl)) :=
  let* fx := f x_old in
  let* fpx := f' x_old in
  if flt (fabs fpx) e_10 || is_nan fpx then
    let d := (if flt (fabs fpx) e_10 then "Derivative is zero or very close to zero"
              else "Invalid derivative (NaN)") ++ " at x = " ++ round_str x_old dp in
    Ok (inl (mkResult (Some x_old) [] ZERO_DERIVATIVE [d]
      (odict_set (key (ic + 1))
         [("Iteration", CInt (ic + 1));
          ("Warning", CStr "Derivative is zero or very close to zero");
          ("Details", CStr d);
          ("f'(Xi)", CStr "---"); ("Error %", CStr "---"); ("Xi+1", CStr "---")]
         (odict_set (key ic)
            [("Iteration", CInt ic); ("Xi", round_cell x_old dp);
             ("f(Xi)", round_cell fx dp);
             ("f'(Xi)", CStr (if flt (fabs fpx) e_10 then "≈0" else "NaN"));
             ("Error %", CStr error_display); ("Xi+1", CStr "---")] t))))
  else if is_nan fx then
    let d := "Function value is invalid (NaN) at x = " ++ round_str x_old dp
             ++ ", likely outside domain" in
    Ok (inl (mkResult None [] NUMERICAL_ERROR [d]
      (odict_set (key (ic + 1))
         [("Iteration", CInt (ic + 1));
          ("Warning", CStr "Function value is invalid (NaN)");
          ("Details", CStr d);
          ("f'(Xi)", CStr "---"); ("Error %", CStr "---"); ("Xi+1", CStr "---")]
         (odict_set (key ic)
            [("Iteration", CInt ic); ("Xi", round_cell x_old dp);
             ("f(Xi)", CStr "NaN"); ("f'(Xi)", round_cell fpx dp);
             ("Error %", CStr error_display); ("Xi+1", CStr "---")] t))))
  else
    let* q := fdiv fx fpx in
    Ok (inr (fx, fpx, fsub x_old q)).

(** [previous_values.append(x); if len(previous_values) > 5: previous_values.pop(0)] *)
Definition push5 (pv : list fl) (x : fl) : list fl :=
  let pv' := app pv [x] in
  if (5 <? length pv')%nat then tl pv' else pv'.

(** Step 8: [len(previous_values) >= 2] and some stored value within [1e-6] *)
Definition oscillates (pv : list fl) (x : fl) : bool :=
  (2 <=? length pv)%nat && existsb (fun p => flt (fabs (fsub x p)) e_6) pv.

(** one pass of [for i in range(max_iter)], its [try/except] included *)
Definition body (f f' : fl -> res fl) (eps : fl) (op : string)
    (stop_by_eps : bool) (dp : Z) (stop_criteria : string)
    (consecutive_check : bool) (consecutive_tolerance : Z)
    (i : Z) (s : state) : res (step state result) :=
  let ic := (i + 1)%Z in
  let x_old := s.(x_current) in
  let t := s.(table) in
  Ok (match newton_step f f' dp ic x_old s.(error_display) t with
  | Err e => Return (on_error ic e t)
  | Ok (inl r) => Return r
  | Ok (inr (fx, fpx, x_cur)) =>
    if is_nan x_cur || is_inf x_cur then
      let m := "Numerical error occurred at iteration " ++ py_int ic in
      Return (mkResult None [] NUMERICAL_ERROR [m]
        (odict_set (key (ic + 1))
           [("Iteration", CInt (ic + 1)); ("Error", CStr "Error"); ("Details", CStr m)]
           (odict_set (key ic)
              [("Iteration", CInt ic); ("Xi", round_cell x_old dp);
               ("f(Xi)", round_cell fx dp); ("f'(Xi)", round_cell fpx dp);
               ("Error %", CStr s.(error_display)); ("Xi+1", CStr "NaN/Inf")] t)))
    else
    let abs_diff := fabs (fsub x_cur x_old) in
    match relative_error abs_diff x_cur with
    | Err e => Return (on_error ic e t)
    | Ok rel =>
    let efc := error_for_check stop_criteria abs_diff rel fx in
    let ed := nr_format_error rel dp in
    let t1 := odict_set (key ic)
                [("Iteration", CInt ic); ("Xi", round_cell x_old dp);
                 ("f(Xi)", round_cell fx dp); ("f'(Xi)", round_cell fpx dp);
                 ("Error %", CStr ed); ("Xi+1", round_cell x_cur dp)] t in
    match f x_cur with
    | Err e => Return (on_error ic e t1)
    | Ok f_at_current =>
    if flt (fabs f_at_current) e_10 then
      Return (mkResult (Some x_cur) [] CONVERGED
        ["Function value is zero within numerical precision"]
        (odict_set (key (ic + 1))
           [("Iteration", CInt (ic + 1));
            ("Result", CStr "Exact root found (within numerical precision)");
            ("Details", CStr ("f(x) ≈ 0 at x = " ++ round_str x_cur dp))] t1))
    else
    let checked := (0 <? i)%Z && stop_by_eps in
    let hit := checked && nr_check_convergence efc eps op in
    let cc := if checked then
                (if hit then (if consecutive_check then (s.(consecutive_count) + 1)%Z
                              else s.(consecutive_count))
                 else 0%Z)
              else s.(consecutive_count) in
    if hit && consecutive_check && (consecutive_tolerance <=? cc)%Z then
      let m := "Converged: " ++ stop_criteria ++ " error below " ++ py_str eps ++ " for "
               ++ py_int consecutive_tolerance ++ " consecutive iterations" in
      Return (mkResult (Some x_cur) [] CONVERGED [m]
        (odict_set (key (ic + 1))
           [("Iteration", CInt (ic + 1)); ("Result", CStr m);
            ("Details", CStr "Converged: Achieved desired accuracy based on relative error")] t1))
    else if hit && negb consecutive_check then
      let m := "Converged: " ++ stop_criteria ++ " error " ++ op ++ " " ++ py_str eps in
      Return (mkResult (Some x_cur) [] CONVERGED [m]
        (odict_set (key (ic + 1))
           [("Iteration", CInt (ic + 1)); ("Result", CStr m);
            ("Details", CStr "Converged: Achieved desired accuracy based on absolute error")] t1))
    else if fgt (fabs x_cur) big_15 then
      Return (mkResult None [] DIVERGED
        ["Method is diverging (value too large: " ++ py_exp 2 x_cur ++ ")"]
        (odict_set (key ic)
           [("Iteration", CInt ic); ("Warning", CStr "Method is diverging");
            ("Details", CStr "Root estimate exceeds safe bounds (|x| > 1.00e+15)")] t1))
    else if oscillates s.(previous_values) x_cur then
      Return (mkResult (Some x_cur) [] OSCILLATING
        ["Method is oscillating between values. Stopping at iteration " ++ py_int ic ++ "."]
        (odict_set (key ic)
           [("Iteration", CInt ic); ("Warning", CStr "Method is oscillating between values");
            ("Details", CStr "Consider using a different initial guess or method")] t1))
    else
      Continue (mk x_cur ic ed cc (push5 s.(previous_values) x_cur) t1)
    end
    end
  end).

(** [NewtonRaphsonMethod.solve]; the [nat] counts the loop iterations.
    The body never raises (its [except] catches everything), so the
    method-level [except] is not reached. *)
Definition solve (f f' : fl -> res fl) (x0 : fl) (eps_opt : option fl) (op : string)
    (max_iter_opt : option Z) (stop_by_eps : bool) (dp : Z)
    (stop_criteria : string) (consecutive_check : bool) (consecutive_tolerance : Z)
    : result * nat :=
  let max_iter := match max_iter_opt with Some m => m | None => 50%Z end in
  let eps := match eps_opt with Some e => e | None => Fin (1 # 10000) end in
  match f x0 with
  | Err e =>
      (mkResult None [] ERROR ["Error evaluating function at initial guess: " ++ py_exn e]
         [(key 0, [("Iteration", CStr "Error"); ("Xi", round_cell x0 dp);
                   ("f(Xi)", CStr ("Error evaluating function: " ++ py_exn e));
                   ("f'(Xi)", CStr "---"); ("Error %", CStr "---"); ("Xi+1", CStr "---")])], O)
  | Ok fx_initial =>
      if flt (fabs fx_initial) e_10 then
        (mkResult (Some x0) [] CONVERGED
           ["Initial guess is already a root (within numerical precision)"]
           [(key 0, [("Iteration", CStr "Info"); ("Xi", round_cell x0 dp);
                     ("f(Xi)", CStr "≈ 0"); ("f'(Xi)", CStr "---");
                     ("Error %", CStr "---"); ("Xi+1", CStr "---")]);
            (key 1, [("Iteration", CStr "Result"); ("Xi", round_cell x0 dp);
                     ("f(Xi)", CStr "Initial guess is already a root (within numerical precision)");
                     ("f'(Xi)", CStr "---"); ("Error %", CStr "---"); ("Xi+1", CStr "---")])], O)
      else
        let (r, k) := for_range
                        (body f f' eps op stop_by_eps dp stop_criteria
                              consecutive_check consecutive_tolerance)
                        0 (Z.to_nat max_iter) (mk x0 0 "---" 0 [] []) in
        (match r with
         | Ok (inr o) => o
         | Ok (inl s) =>
             mkResult None [] MAX_ITERATIONS
               ["Maximum iterations (" ++ py_int max_iter ++ ") reached"]
               (odict_set (key s.(iter_count))
                  [("Iteration", CInt s.(iter_count));
                   ("Result", CStr "Maximum iterations reached");
                   ("Details", CStr ("Maximum iterations (" ++ py_int max_iter ++ ") reached"))]
                  s.(table))
         | Err e =>
             mkResult None [] ERROR ["Newton-Raphson method failed: " ++ py_exn e]
               [(key 0, [("Error", CStr "Error");
                         ("Details", CStr ("Newton-Raphson method failed: " ++ py_exn e))])]
         end, k)
  end.

End Solve.
End NewtonRaphson.

(* ------------------------------------------------------------------ *)
(** ** [FixedPointMethod.solve] (fixed_point.py)

    [derive_gx] (the rewriting heuristics) is taken as its outcome: a
    callable [g] or an error message.  The [while True] loop is run with
    [fuel]: [None] means the fuel ran out while the loop would go on. *)

Module FixedPoint.

Section Solve.
Context `{PyFormat}.

Definition has_dot (s : string) : bool :=
  existsb (Ascii.eqb "."%char) (list_ascii_of_string s).

(** [NumericalMethodBase._format_value] *)
Definition format_value (v : fl) (dp : Z) : string :=
  match v with
  | NaN => "NaN"
  | PInf => "Inf"
  | NInf => "-Inf"
  | Fin _ =>
      let s := py_fixed dp v in
      if has_dot s then rstrip "."%char (rstrip "0"%char s) else s
  end.

Definition error_row (m : string) : list row := [[("Error", CStr m)]].

Fixpoint loop (fuel : nat) (g : fl -> res fl) (eps : fl) (max_iter dp : Z)
    (xi : fl) (iter_count : Z) (error : fl) (table : list row)
    : option ((option fl * list row) * nat) :=
  match fuel with
  | O => None
  | S fuel' =>
      let fail e := Some ((None, error_row ("Error during iteration: " ++ py_exn e)), 1%nat) in
      match g xi with
      | Err e => fail e
      | Ok g_xi =>
          if is_nan g_xi then
            Some ((None, error_row "NaN value encountered. The fixed point method failed to converge. Try a different initial guess or function."), 1%nat)
          else
            let xi_plus_1 := g_xi in
            match (if (0 <? iter_count)%Z then
                     let* q := fdiv (fsub xi_plus_1 xi) xi_plus_1 in Ok (fmul (fabs q) (Fin 100))
                   else Ok error) with
            | Err e => fail e
            | Ok error' =>
                (* the row evaluates [float(g(xi))] a second time *)
                match g xi with
                | Err e => fail e
                | Ok g_again =>
                    let r : row :=
                      [("Iteration", CInt iter_count);
                       ("Xi", CNum (round_value xi dp));
                       ("g(Xi)", CNum (round_value g_again dp));
                       ("Xi+1", CNum (round_value xi_plus_1 dp));
                       ("Error %", CStr (if (iter_count =? 0)%Z then "---"
                                         else format_value error' dp))] in
                    let table' := app table [r] in
                    let ic := (iter_count + 1)%Z in
                    if negb (fgt error' eps || (ic =? 1)%Z) || (max_iter <=? ic)%Z then
                      Some ((Some xi_plus_1, table'), 1%nat)
                    else
                      match loop fuel' g eps max_iter dp xi_plus_1 ic error' table' with
                      | Some (o, k) => Some (o, S k)
                      | None => None
                      end
                end
            end
      end
  end.

(** [FixedPointMethod.solve]; [eps_operator] and [stop_by_eps] are not
    read by the source. *)
Definition solve (derived : (fl -> res fl) + string) (x0 eps : fl) (op : string)
    (max_iter : Z) (stop_by_eps : bool) (dp : Z) (fuel : nat)
    : option ((option fl * list row) * nat) :=
  match derived with
  | inr m => Some ((None, error_row m), O)
  | inl g => loop fuel g eps max_iter dp x0 0 (Fin 100) []
  end.

End Solve.
End FixedPoint.

(* ------------------------------------------------------------------ *)
(** ** [Solver.solve] up to the call of a root-finding method (solver.py) *)

Module Solver.

(** the Python values a [params] dictionary holds *)
Inductive pyval : Type :=
| PyInt (z : Z)
| PyFloat (x : fl)
| PyBool (b : bool)
| PyStr (s : string)
| PyNone.

Definition params : Type := list (string * pyval).

Fixpoint get (k : string) (p : params) : option pyval :=
  match p with
  | [] => None
  | (k', v) :: p' => if String.eqb k k' then Some v else get k p'
  end.

Definition has (k : string) (p : params) : bool :=
  match get k p with Some _ => true | None => false end.

(** [isinstance(v, (int, float))]; [bool] is a subclass of [int] *)
Definition is_number (v : option pyval) : bool :=
  match v with
  | Some (PyInt _) | Some (PyFloat _) | Some (PyBool _) => true
  | _ => false
  end.

(** the numeric value of an [int], [float] or [bool] *)
Definition num (v : option pyval) : fl :=
  match v with
  | Some (PyInt z) => fl_of_Z z
  | Some (PyFloat x) => x
  | Some (PyBool b) => if b then Fin 1 else Fin 0
  | _ => Fin 0
  end.

(** [float(params.get(k, 0))] on a numeric entry *)
Definition get_float (k : string) (p : params) : fl :=
  match get k p with None => Fin 0 | v => num v end.

Definition linear_methods : list string :=
  ["Gauss Elimination"; "Gauss Elimination (Partial Pivoting)";
   "LU Decomposition"; "LU Decomposition (Partial Pivoting)";
   "Gauss-Jordan"; "Gauss-Jordan (Partial Pivoting)"].

Definition methods : list string :=
  ["Bisection"; "False Position"; "Fixed Point"; "Newton-Raphson"; "Secant"]
  ++ linear_methods.

Definition mem (s : string) (l : list string) : bool := existsb (String.eqb s) l.

(** [Solver.validate_parameters] for the root-finding methods; the
    "Gauss Elimination" branch checks matrices and is not modelled. *)
Definition validate_parameters (method_name : string) (p : params) : option string :=
  if mem method_name ["Bisection"; "False Position"] then
    if negb (has "xl" p && has "xu" p) then Some "Missing parameters: xl and xu required"
    else if negb (is_number (get "xl" p)) || negb (is_number (get "xu" p)) then
      Some "xl and xu must be numbers"
    else if fge (num (get "xl" p)) (num (get "xu" p)) then Some "xl must be less than xu"
    else None
  else if mem method_name ["Fixed Point"; "Newton-Raphson"] then
    if negb (has "xi" p) then Some "Missing parameter: xi required"
    else if negb (is_number (get "xi" p)) then Some "xi must be a number"
    else None
  else if String.eqb method_name "Secant" then
    if negb (has "xi_minus_1" p && has "xi" p) then
      Some "Missing parameters: xi_minus_1 and xi required"
    else if negb (is_number (get "xi_minus_1" p)) || negb (is_number (get "xi" p)) then
      Some "xi_minus_1 and xi must be numbers"
    else if feq (num (get "xi_minus_1" p)) (num (get "xi" p)) then
      Some "xi_minus_1 must be different from xi"
    else None
  else None.

(** the method call the Solver makes, with its arguments *)
Inductive call : Type :=
| CallBracketing (method_name : string) (xl xu eps : fl) (op : string)
    (max_iter : Z) (stop_by_eps : bool) (dp : Z)
| CallFixedPoint (xi eps : fl) (op : string) (max_iter : Z) (stop_by_eps : bool)
    (dp : Z) (auto_generate_g : pyval)
| CallNewton (xi eps : fl) (op : string) (max_iter : Z) (stop_by_eps : bool) (dp : Z)
| CallSecant (xi_minus_1 xi eps : fl) (op : string) (max_iter : Z)
    (stop_by_eps : bool) (dp : Z).

Inductive outcome : Type :=
| Rejected (root : option fl) (table : list row)   (** returned before any call *)
| Invoke (c : call)                               (** a method is called *)
| LinearSystem.                                   (** the matrix branch *)

(** [Solver.solve] up to the method call.  [validate_function] (sympy
    parsing) is taken as a parameter.  The attributes [self.eps],
    [self.max_iter], [self.stop_by_eps] and the default [decimal_places]
    are taken at the constructor's values (0.0001, 50, True, 6); the
    settings dialog of the application can change them. *)
Definition dispatch (validate_function : string -> option string)
    (method_name func : string) (p : params) (eps_opt : option fl) (op : string)
    (max_iter_opt : option Z) (stop_by_eps_opt : option bool) (dp_opt : option Z)
    : outcome :=
  let eps := match eps_opt with Some e => e | None => Fin (1 # 10000) end in
  let max_iter := match max_iter_opt with Some m => m | None => 50%Z end in
  let stop_by_eps := match stop_by_eps_opt with Some b => b | None => true end in
  let dp := match dp_opt with Some d => d | None => 6%Z end in
  if negb (mem method_name methods) then
    Rejected None [[("Error", CStr ("Unknown method: " ++ method_name))]]
  else if mem method_name linear_methods then LinearSystem
  else
    match validate_function func with
    | Some m => Rejected None [[("Error", CStr m)]]
    | None =>
        match validate_parameters method_name p with
        | Some m => Rejected None [[("Error", CStr m)]]
        | None =>
            if mem method_name ["Bisection"; "False Position"] then
              Invoke (CallBracketing method_name (get_float "xl" p) (get_float "xu" p)
                        eps op max_iter stop_by_eps dp)
            else if String.eqb method_name "Fixed Point" then
              Invoke (CallFixedPoint (get_float "xi" p) eps op max_iter stop_by_eps dp
                        (match get "auto_generate_g" p with Some v => v | None => PyBool false end))
            else if String.eqb method_name "Newton-Raphson" then
              Invoke (CallNewton (get_float "xi" p) eps op max_iter stop_by_eps dp)
            else
              Invoke (CallSecant (get_float "xi_minus_1" p) (get_float "xi" p)
                        eps op max_iter stop_by_eps dp)
        end
    end.

End Solver.

(* ------------------------------------------------------------------ *)
(** ** [NumericalMethodBase._create_function] and its [safe_eval] (base.py)

    The text is parsed by [sympy.sympify] into an expression and
    [sympy.lambdify(x, expr, modules=['numpy', 'sympy'])] turns it into
    Python code.  The evaluator of that code is modelled over the reals,
    for expressions in [x]: [sqrt] and [log] are numpy's (NaN or [-inf]
    outside their domain, the warnings being silenced by
    [np.errstate(all='ignore')]); numpy's other elementwise functions
    ([sin], [cos], [tan], [exp], [log10], ...) map a value to a value and
    raise nothing under that [errstate]; [e ** 0.5] on a negative Python
    float gives a Python [complex]; a float division by zero raises
    [ZeroDivisionError]. *)


Module Expression.
Local Open Scope R_scope.














End Expression.

(* ------------------------------------------------------------------ *)
(** ** [NewtonRaphsonMethod._create_function] (newton_raphson.py)

    Newton-Raphson compiles the text itself: it [exec]s the source
    [def _user_func(x): return <text>] in a namespace holding numpy's
    functions, with a domain test [x < 0] in front when the text mentions
    [sqrt].  No [try] surrounds the [return].  The model covers the texts
    printed from arithmetic expressions in [x] with integer literals,
    which Python evaluates on floats; a float division by zero raises
    [ZeroDivisionError]. *)

Module NRFunction.

Inductive pexpr : Type :=
| PVar
| PInt (n : nat)
| PAdd (a b : pexpr)
| PSub (a b : pexpr)
| PMul (a b : pexpr)
| PDiv (a b : pexpr).

Fixpoint digits (fuel n : nat) (acc : string) : string :=
  match fuel with
  | O => acc
  | S fuel' =>
      let acc' := String (Ascii.ascii_of_nat (48 + Nat.modulo n 10)) acc in
      if Nat.ltb n 10 then acc' else digits fuel' (Nat.div n 10) acc'
  end.

(** [str(n)] *)
Definition show_nat (n : nat) : string := digits (S n) n "".

(** an operand, in parentheses unless it is atomic *)
Definition wrap (e : pexpr) (s : string) : string :=
  match e with
  | PVar | PInt _ => s
  | _ => "(" ++ s ++ ")"
  end.

(** the function text *)
Fixpoint show (e : pexpr) : string :=
  match e with
  | PVar => "x"
  | PInt n => show_nat n
  | PAdd a b => wrap a (show a) ++ " + " ++ wrap b (show b)
  | PSub a b => wrap a (show a) ++ " - " ++ wrap b (show b)
  | PMul a b => wrap a (show a) ++ "*" ++ wrap b (show b)
  | PDiv a b => wrap a (show a) ++ "/" ++ wrap b (show b)
  end.

(** [p in s] on strings *)
Fixpoint contains (p s : string) : bool :=
  match s with
  | EmptyString => String.eqb p ""
  | String _ s' => String.prefix p s || contains p s'
  end.

(** Python's evaluation of the text at a float [x] *)
Fixpoint py_eval (e : pexpr) (x : fl) : res fl :=
  match e with
  | PVar => Ok x
  | PInt n => Ok (fl_of_Z (Z.of_nat n))
  | PAdd a b => let* u := py_eval a x in let* w := py_eval b x in Ok (fadd u w)
  | PSub a b => let* u := py_eval a x in let* w := py_eval b x in Ok (fsub u w)
  | PMul a b => let* u := py_eval a x in let* w := py_eval b x in Ok (fmul u w)
  | PDiv a b => let* u := py_eval a x in let* w := py_eval b x in fdiv u w
  end.

(** the compiled [_user_func], called on a Python float: with ["sqrt"] in
    the text, the f-string's condition becomes [x < 0] when the text holds
    ["np.sqrt"] or ["sqrt(x)"], and [False] otherwise *)
Definition create_function (e : pexpr) (x : fl) : res fl :=
  let s := show e in
  if contains "sqrt" s then
    if (contains "np.sqrt" s || contains "sqrt(x)" s) && flt x (Fin 0)
    then Ok NaN else py_eval e x
  else py_eval e x.

End NRFunction.

(* ------------------------------------------------------------------ *)
(** ** [HistoryManager] (history.py)

    The history file holds what [json.dump] wrote; the model keeps the
    value [json.load] gives back.  The rows of a trace hold ints, floats
    and strings, which the JSON round trip returns unchanged.  Reads and
    writes of the file are taken to succeed; the copies [_create_backup]
    makes go to a separate directory and are not modelled. *)

Module History.

(** the dictionary [save_solution] appends *)
Record entry : Type := mkEntry {
  e_function : string;
  e_method : string;
  e_root : fl;
  e_table : list row;
  e_timestamp : string   (** [datetime.now().isoformat()] *)
}.

(** an element of the stored list: an entry, or any other JSON value *)
Inductive item : Type :=
| Entry (e : entry)
| Foreign.

(** the state of the file at [file_path] *)
Inductive file : Type :=
| Missing                (** no file *)
| Undecodable            (** [json.load] raises [JSONDecodeError] *)
| NotList                (** valid JSON that is not a list *)
| List (l : list item).

(** [load_history]: the list read, and the file afterwards (a missing
    file is created holding [[]]). *)
Definition load_history (h : file) : list item * file :=
  match h with
  | Missing => ([], List [])
  | Undecodable | NotList => ([], h)
  | List l => (l, h)
  end.

(** [_validate_solution_data].  The root is a float and the table a list
    of dictionaries at every call the Solver makes, so the checks on
    their types hold; the two strings must be non-empty. *)
Definition validate_solution_data (func method : string) : bool :=
  negb (String.eqb func "") && negb (String.eqb method "").

(** [save_solution]: the answer and the file afterwards *)
Definition save_solution (h : file) (func method : string) (root : fl)
    (table : list row) (now : string) : bool * file :=
  if validate_solution_data func method then
    let (history, _) := load_history h in
    (true, List (app history [Entry (mkEntry func method root table now)]))
  else (false, h).

(** [clear_history] *)
Definition clear_history (h : file) : bool * file :=
  match h with
  | Missing => (true, Missing)
  | _ => (true, List [])
  end.

(** Python's [l[start:]] *)
Definition slice_from {A : Type} (l : list A) (start : Z) : list A :=
  let n := Z.of_nat (length l) in
  let s := if (start <? 0)%Z then Z.max 0 (n + start) else Z.min start n in
  skipn (Z.to_nat s) l.

(** [get_recent_solutions]: [history[-limit:] if history else []] *)
Definition get_recent_solutions (h : file) (limit : Z) : list item * file :=
  let (history, h') := load_history h in
  (match history with
   | [] => []
   | _ => slice_from history (- limit)
   end, h').

End History.

(* ------------------------------------------------------------------ *)
(** ** [Solver.solve] with the method call and the history update
    (solver.py)

    The Solver's [validate_function] and the callables the methods build
    from the function text are taken as parameters.  [solver.py] also
    imports six linear-system classes that are not part of the source
    tree; their branch is not modelled ([None]). *)

Module SolverCall.

Record compiler : Type := mkCompiler {
  validate_function : string -> option string;
  (** [NumericalMethodBase._create_function]: raises [ValueError] on a text
      sympy cannot parse *)
  create_function : string -> res (fl -> res fl);
  (** [NewtonRaphsonMethod._create_function] and [_create_derivative],
      which catch their own errors *)
  nr_functions : string -> (fl -> res fl) * (fl -> res fl)
}.

Section Solve.
Context `{PyFormat}.

(** [SecantMethod.solve] from the function text: [_create_function] runs
    inside the method's outer [try]. *)
Definition secant_solve (cmp : compiler) (func : string) (xa xb eps : fl) (op : string)
    (max_iter : Z) (stop_by_eps : bool) (dp : Z) : option fl * list row :=
  match create_function cmp func with
  | Err e => (None, [[("Error", CStr ("An unexpected error occurred: " ++ py_exn e));
                       ("Status", CStr "ERROR");
                       ("Details", CStr "Check your inputs and try again")]])
  | Ok f => fst (Secant.solve f xa xb eps op max_iter stop_by_eps dp)
  end.

(** The call [self.methods[method_name].solve(...)] and the unpacking
    [result, table = ...].  [FixedPointMethod.solve] has no
    [auto_generate_g] parameter, so the keyword argument raises
    [TypeError] before its body runs.  A [NewtonRaphsonResult] unpacks
    into its [root] and its [iterations]. *)
Definition call_method (cmp : compiler) (func : string) (c : Solver.call)
    : res (option fl * list row) :=
  match c with
  | Solver.CallBracketing m xl xu eps op max_iter stop_by_eps dp =>
      let* f := create_function cmp func in
      if String.eqb m "Bisection" then
        fst (Bisection.solve f xl xu eps op max_iter stop_by_eps dp)
      else fst (FalsePosition.solve f xl xu eps op max_iter stop_by_eps dp)
  | Solver.CallFixedPoint _ _ _ _ _ _ _ => Err TypeError
  | Solver.CallNewton xi eps op max_iter stop_by_eps dp =>
      let (f, f') := nr_functions cmp func in
      let r := fst (NewtonRaphson.solve f f' xi (Some eps) op (Some max_iter) stop_by_eps dp
                      "relative" false 3) in
      Ok (NewtonRaphson.root r, NewtonRaphson.iterations r)
  | Solver.CallSecant xa xb eps op max_iter stop_by_eps dp =>
      Ok (secant_solve cmp func xa xb eps op max_iter stop_by_eps dp)
  end.

(** [Solver.solve] for the root-finding methods: the answer and the
    history file afterwards; [now] is the time stamp of a save. *)
Definition solve (cmp : compiler) (h : History.file) (now : string)
    (method_name func : string) (p : Solver.params) (eps_opt : option fl) (op : string)
    (max_iter_opt : option Z) (stop_by_eps_opt : option bool) (dp_opt : option Z)
    : option ((option fl * list row) * History.file) :=
  match Solver.dispatch (validate_function cmp) method_name func p eps_opt op
          max_iter_opt stop_by_eps_opt dp_opt with
  | Solver.Rejected r t => Some ((r, t), h)
  | Solver.LinearSystem => None
  | Solver.Invoke c =>
      Some (match call_method cmp func c with
            | Err e => ((None, [[("Error", CStr ("Solver error: " ++ py_exn e))]]), h)
            | Ok (None, t) => ((None, t), h)
            | Ok (Some x, t) =>
                ((Some x, t), snd (History.save_solution h func method_name x t now))
            end)
  end.

End Solve.
End SolverCall.

(* ------------------------------------------------------------------ *)
(** ** Properties stated by the specification *)

(** the midpoint [(x_l + x_u) / 2] *)
Definition midpoint (a b : fl) : fl :=
  match fadd a b with
  | Fin q => Fin (q / 2)
  | v => v
  end.

(** a row that explains itself: a [Message], [Error] or [Warning] field
    holding a non-empty text *)
Definition has_message (r : row) : bool :=
  existsb (fun kc =>
             Solver.mem (fst kc) ["Message"; "Error"; "Warning"] &&
             match snd kc with CStr m => negb (String.eqb m "") | _ => false end) r.

Definition ends_with_message (t : list row) : bool :=
  match rev t with
  | r :: _ => has_message r
  | [] => false
  end.

(** the error the specification compares when [stop_by_eps] holds: the
    relative percentage error when [eps > 1] (the absolute difference when
    [|x_{i+1}| <= 1e-10]), the absolute difference otherwise *)
Definition selected_error (eps abs_diff x_new : fl) : fl :=
  if fgt eps (Fin 1) then
    if flt e_10 (fabs x_new) then
      match fdiv abs_diff (fabs x_new) with
      | Ok q => fmul q (Fin 100)
      | Err _ => abs_diff
      end
    else abs_diff
  else abs_diff.

(** the [Status] field of a row, if any *)
Fixpoint assoc (k : string) (r : row) : option cell :=
  match r with
  | (k', c) :: r' => if String.eqb k k' then Some c else assoc k r'
  | [] => None
  end.

(** every [Status] text [SecantMethod.solve] writes *)
Definition secant_statuses : list string :=
  ["SUCCESS"; "Starting..."; "Searching..."; "Max iterations reached";
   "ZERO_DENOMINATOR"; "EVALUATION_ERROR"; "INVALID_VALUE"; "CONVERGED";
   "MAX_ITERATIONS"; "ERROR"].

Definition secant_status_ok (r : row) : bool :=
  match assoc "Status" r with
  | None => true
  | Some (CStr st) => Solver.mem st secant_statuses
  | Some _ => false
  end.

Definition ends_with_iteration_row (t : list row) : bool :=
  match rev t with
  | r :: _ => match assoc "Iteration" r with Some _ => true | None => false end
  | [] => false
  end.

(** a Newton-Raphson result explains itself by one non-empty message *)
Definition nr_explained (r : NewtonRaphson.result) : bool :=
  match NewtonRaphson.messages r with
  | [m] => negb (String.eqb m "")
  | _ => false
  end.

(** A sample rendering of numbers, used to run the solvers on concrete
    inputs. *)
#[export] Instance sample_format : PyFormat := {
  py_str := fun _ => "x";
  py_fixed := fun _ _ => "x";
  py_exp := fun _ _ => "x";
  py_int := fun _ => "i";
  py_exn := fun _ => "e"
}.

(** sample functions: [x**2 - 4] and [x/2] *)
Definition sq4 (x : fl) : res fl := Ok (fsub (fmul x x) (Fin 4)).
(** the text ["x**2 - 4"] as the Solver's checks and builders see it: it
    passes [validate_function] and compiles to [sq4], with derivative [2x] *)
Definition sq4_compiler : SolverCall.compiler :=
  SolverCall.mkCompiler (fun _ => None) (fun _ => Ok sq4)
    (fun _ => (sq4, fun x => Ok (fmul (Fin 2) x))).
Definition halve (x : fl) : res fl := Ok (fmul x (Fin (1 # 2))).


Definition nan_below_0 (x : fl) : res fl :=
  match x with
  | Fin q => if Qltb q 0 then Ok NaN else Ok (Fin (q - 1))
  | _ => Ok NaN
  end.

(** the sample [1000000 * (x**2 - 2)] *)
Definition sq2m (x : fl) : res fl := Ok (fmul (Fin 1000000) (fsub (fmul x x) (Fin 2))).

Definition is_some {A : Type} (o : option A) : bool :=
  match o with Some _ => true | None => false end.

(** the root-finding methods of the Solver *)
Definition root_methods : list string :=
  ["Bisection"; "False Position"; "Fixed Point"; "Newton-Raphson"; "Secant"].

(** the threshold a method call receives *)
Definition call_eps (c : Solver.call) : fl :=
  match c with
  | Solver.CallBracketing _ _ _ e _ _ _ _ => e
  | Solver.CallFixedPoint _ e _ _ _ _ _ => e
  | Solver.CallNewton _ e _ _ _ _ => e
  | Solver.CallSecant _ _ e _ _ _ _ => e
  end.

(** [g] applied [n] times from [x], stopping at the first exception *)
Fixpoint iterate (g : fl -> res fl) (n : nat) (x : fl) : res fl :=
  match n with
  | O => Ok x
  | S n' => let* y := g x in iterate g n' y
  end.

(** the [Iteration] fields of a trace *)
Definition iteration_numbers (t : list row) : list (option cell) :=
  map (assoc "Iteration") t.

(** the Newton-Raphson statuses that come with a root *)
Definition status_has_root (st : NewtonRaphson.status) : bool :=
  match st with
  | NewtonRaphson.CONVERGED | NewtonRaphson.ZERO_DERIVATIVE
  | NewtonRaphson.OSCILLATING => true
  | _ => false
  end.

(** the [Iteration] fields [0, 1, ..., n - 1] *)
Definition counted (n : nat) : list (option cell) :=
  map (fun i => Some (CInt (Z.of_nat i))) (seq 0 n).

(** a Newton-Raphson result with an empty [iterations] list, a root exactly
    for the statuses that come with one, and never [DOMAIN_ERROR] *)
Definition nr_shape (r : NewtonRaphson.result) : bool :=
  match NewtonRaphson.iterations r with [] => true | _ => false end &&
  Bool.eqb (match NewtonRaphson.root r with Some _ => true | None => false end)
           (status_has_root (NewtonRaphson.status_of r)) &&
  match NewtonRaphson.status_of r with NewtonRaphson.DOMAIN_ERROR => false | _ => true end.

(* ================================================================== *)
(** * Proofs *)

(** ** The loop combinator *)

Lemma for_range_count {St Out : Type} (body : Z -> St -> res (step St Out)) i n s :
  (snd (for_range body i n s) <= n)%nat.
Proof.
  revert i s; induction n as [|n IH]; intros i s; simpl; [lia|].
  destruct (body i s) as [[s'|o]|e]; simpl; try lia.
  specialize (IH (i + 1)%Z s').
  destruct (for_range body (i + 1)%Z n s') as [r k]; simpl in *; lia.
Qed.

Lemma for_range_inv {St Out : Type} (I : St -> Prop) (P : Out -> Prop)
    (body : Z -> St -> res (step St Out)) i n s :
  I s ->
  (forall j t, I t ->
     match body j t with
     | Ok (Continue t') => I t'
     | Ok (Return o) => P o
     | Err _ => True
     end) ->
  match fst (for_range body i n s) with
  | Ok (inl t) => I t
  | Ok (inr o) => P o
  | Err _ => True
  end.
Proof.
  intros Hs Hb; revert i s Hs; induction n as [|n IH]; intros i s Hs; simpl; [exact Hs|].
  specialize (Hb i s Hs).
  destruct (body i s) as [[s'|o]|e]; simpl; auto.
  specialize (IH (i + 1)%Z s' Hb).
  destruct (for_range body (i + 1)%Z n s') as [r k]; exact IH.
Qed.

Lemma for_range_enters {St Out : Type} (body : Z -> St -> res (step St Out)) i n s :
  (1 <= n)%nat -> (1 <= snd (for_range body i n s))%nat.
Proof.
  intros Hn; destruct n as [|n]; [lia|]; simpl.
  destruct (body i s) as [[s'|o]|e]; simpl; try lia.
  destruct (for_range body (i + 1)%Z n s'); simpl; lia.
Qed.

Lemma fdiv_half a b : fdiv (fadd a b) (Fin 2) = Ok (midpoint a b).
Proof. unfold midpoint; destruct (fadd a b); reflexivity. Qed.

Lemma midpoint_fin a b : midpoint (Fin a) (Fin b) = Fin ((a + b) / 2).
Proof. reflexivity. Qed.

(** ** Bisection *)

(** C3: every Bisection pass evaluates [f] at the midpoint
    [x_r = (x_l + x_u) / 2]; a pass that returns returns [x_r], and a pass
    that goes on sets [x_u := x_r] when [f(x_l)·f(x_r) < 0] and
    [x_l := x_r] otherwise (carrying [f(x_r)] along with the new bound). *)
Theorem bisection_midpoint_update `{PyFormat} (f : fl -> res fl) eps op stop_by_eps dp i
    (s : Bisection.state) o :
  Bisection.body f eps op stop_by_eps dp i s = Ok o ->
  let m := midpoint s.(Bisection.xl) s.(Bisection.xu) in
  exists f_xr, f m = Ok f_xr /\
  match o with
  | Continue s' =>
      s'.(Bisection.xr) = Some m /\
      if flt (fmul s.(Bisection.f_xl) f_xr) (Fin 0) then
        s'.(Bisection.xl) = s.(Bisection.xl) /\ s'.(Bisection.xu) = m /\
        s'.(Bisection.f_xl) = s.(Bisection.f_xl) /\ s'.(Bisection.f_xu) = f_xr
      else
        s'.(Bisection.xl) = m /\ s'.(Bisection.xu) = s.(Bisection.xu) /\
        s'.(Bisection.f_xl) = f_xr /\ s'.(Bisection.f_xu) = s.(Bisection.f_xu)
  | Return (root, _) => root = Some m
  end.
Proof.
  intros Hb m; unfold Bisection.body in Hb.
  destruct (if (0 <? i)%Z then _ else _) as [x_old|e]; cbn [bind] in Hb; [|discriminate].
  rewrite fdiv_half in Hb; cbn [bind] in Hb; fold m in Hb.
  destruct (f m) as [fx|e]; cbn [bind] in Hb; [|discriminate].
  exists fx; split; [reflexivity|].
  destruct (if (0 <? i)%Z then _ else _) as [err|e]; cbn [bind] in Hb; [|discriminate].
  destruct (flt (fabs fx) e_10); [injection Hb as <-; reflexivity|].
  destruct (Bisection.eps_stop eps op stop_by_eps i (fabs (fsub m x_old)) m)
    as [[row_m|]|e]; cbn [bind] in Hb; try discriminate.
  - injection Hb as <-; reflexivity.
  - destruct (flt (fmul (Bisection.f_xl s) fx) (Fin 0)) eqn:Es;
      injection Hb as <-; simpl; auto.
Qed.

Lemma ends_with_message_app1 t m : ends_with_message (app t [m]) = has_message m.
Proof. unfold ends_with_message; rewrite rev_app_distr; reflexivity. Qed.

Lemma ends_with_message_app2 t r m : ends_with_message (app t [r; m]) = has_message m.
Proof. unfold ends_with_message; rewrite rev_app_distr; reflexivity. Qed.

Lemma fmul_nan a b : is_nan a || is_nan b = true -> fmul a b = NaN.
Proof. destruct a, b; simpl; congruence. Qed.

(** [abs(x) > 1e-10] makes [abs(x)] a valid divisor. *)
Lemma fdiv_fabs_ok d x : flt e_10 (fabs x) = true -> exists q, fdiv d (fabs x) = Ok q.
Proof.
  intros Hx; destruct x as [q| | |]; simpl in Hx; try discriminate.
  - simpl; unfold Qltb in Hx.
    destruct (Qeq_bool (Qabs q) 0) eqn:E.
    + apply Qeq_bool_iff in E; rewrite E in Hx; discriminate.
    + destruct d; eexists; reflexivity.
  - destruct d; eexists; reflexivity.
  - destruct d; eexists; reflexivity.
Qed.

Ltac split_ifs :=
  repeat match goal with
         | |- context [if ?b then _ else _] => destruct b
         | H : context [if ?b then _ else _] |- _ => destruct b
         end.

Lemma bisection_eps_stop_msg `{PyFormat} eps op sbe i d x m :
  Bisection.eps_stop eps op sbe i d x = Ok (Some m) -> has_message m = true.
Proof.
  unfold Bisection.eps_stop, Bisection.rel_stop, Bisection.abs_stop.
  destruct ((0 <? i)%Z && sbe); [|discriminate].
  destruct (fgt eps (Fin 1)).
  - destruct (Bisection.rel_error d x) as [rel|e]; cbn [bind]; [|discriminate].
    split_ifs; intros Hm; inversion Hm; subst; reflexivity.
  - split_ifs; intros Hm; inversion Hm; subst; reflexivity.
Qed.

Lemma bisection_body_returns `{PyFormat} f eps op sbe dp j t :
  match Bisection.body f eps op sbe dp j t with
  | Ok (Return o) => ends_with_message (snd o) = true
  | _ => True
  end.
Proof.
  unfold Bisection.body.
  destruct (if (0 <? j)%Z then _ else _) as [x_old|e]; cbn [bind]; [|exact I].
  rewrite fdiv_half; cbn [bind].
  destruct (f _) as [fx|e]; cbn [bind]; [|exact I].
  destruct (if (0 <? j)%Z then _ else _) as [err|e]; cbn [bind]; [|exact I].
  destruct (flt (fabs fx) e_10); [simpl; rewrite ends_with_message_app2; reflexivity|].
  destruct (Bisection.eps_stop _ _ _ _ _ _) as [[m|]|e] eqn:Es; cbn [bind]; try exact I.
  - simpl; rewrite ends_with_message_app2; exact (bisection_eps_stop_msg _ _ _ _ _ _ _ Es).
  - destruct (flt _ (Fin 0)); exact I.
Qed.

Lemma false_position_eps_stop_msg `{PyFormat} eps op sbe i d m :
  FalsePosition.eps_stop eps op sbe i d = Some m -> has_message m = true.
Proof.
  unfold FalsePosition.eps_stop.
  split_ifs; intros Hm; inversion Hm; subst; reflexivity.
Qed.

Lemma false_position_body_returns `{PyFormat} f eps op sbe dp j t :
  match FalsePosition.body f eps op sbe dp j t with
  | Ok (Return o) => ends_with_message (snd o) = true
  | _ => True
  end.
Proof.
  unfold FalsePosition.body.
  destruct (if (0 <? j)%Z then _ else _) as [x_old|e]; cbn [bind]; [|exact I].
  destruct (fdiv _ _) as [q|e]; cbn [bind]; [|exact I].
  destruct (f _) as [fx|e]; cbn [bind]; [|exact I].
  destruct (if (0 <? j)%Z then _ else _) as [err|e]; cbn [bind]; [|exact I].
  destruct (flt (fabs fx) e_10); [simpl; rewrite ends_with_message_app2; reflexivity|].
  destruct (FalsePosition.eps_stop _ _ _ _ _) as [m|] eqn:Es.
  - simpl; rewrite ends_with_message_app2; exact (false_position_eps_stop_msg _ _ _ _ _ _ Es).
  - destruct (flt _ (Fin 0)); exact I.
Qed.

Lemma bisection_solve_message `{PyFormat} f xl xu eps op max_iter sbe dp root t :
  fst (Bisection.solve f xl xu eps op max_iter sbe dp) = Ok (root, t) ->
  ends_with_message t = true.
Proof.
  unfold Bisection.solve.
  destruct (let* a := f xl in _) as [[a b]|e]; [|discriminate].
  destruct (fgt (fmul a b) (Fin 0)); [intros Hr; injection Hr as _ <-; reflexivity|].
  destruct (flt (fabs a) e_10); [intros Hr; injection Hr as _ <-; reflexivity|].
  destruct (flt (fabs b) e_10); [intros Hr; injection Hr as _ <-; reflexivity|].
  assert (Hinv := for_range_inv (fun _ => True) (fun o => ends_with_message (snd o) = true)
                    (Bisection.body f eps op sbe dp) 0 (Z.to_nat max_iter)
                    (Bisection.mk xl xu a b None (Fin 0) NoErr []) I).
  destruct (for_range _ _ _ _) as [r k]; simpl in *.
  intros Hr; destruct r as [[s|o]|e]; try discriminate.
  - destruct (Bisection.xr s); [|discriminate].
    injection Hr as _ <-; apply ends_with_message_app1.
  - injection Hr as ->; apply Hinv.
    intros j t' _; generalize (bisection_body_returns f eps op sbe dp j t').
    destruct (Bisection.body _ _ _ _ _ _ _) as [[?|?]|?]; auto.
Qed.

Lemma false_position_solve_message `{PyFormat} f xl xu eps op max_iter sbe dp root t :
  fst (FalsePosition.solve f xl xu eps op max_iter sbe dp) = Ok (root, t) ->
  ends_with_message t = true.
Proof.
  unfold FalsePosition.solve.
  destruct (let* a := f xl in _) as [[a b]|e]; [|discriminate].
  destruct (fgt (fmul a b) (Fin 0)); [intros Hr; injection Hr as _ <-; reflexivity|].
  destruct (flt (fabs a) e_10); [intros Hr; injection Hr as _ <-; reflexivity|].
  destruct (flt (fabs b) e_10); [intros Hr; injection Hr as _ <-; reflexivity|].
  assert (Hinv := for_range_inv (fun _ => True) (fun o => ends_with_message (snd o) = true)
                    (FalsePosition.body f eps op sbe dp) 0 (Z.to_nat max_iter)
                    (FalsePosition.mk xl xu a b None (Fin 0) NoErr []) I).
  destruct (for_range _ _ _ _) as [r k]; simpl in *.
  intros Hr; destruct r as [[s|o]|e]; try discriminate.
  - destruct (FalsePosition.xr s); [|discriminate].
    injection Hr as _ <-; apply ends_with_message_app1.
  - injection Hr as ->; apply Hinv.
    intros j t' _; generalize (false_position_body_returns f eps op sbe dp j t').
    destruct (FalsePosition.body _ _ _ _ _ _ _) as [[?|?]|?]; auto.
Qed.

Lemma secant_eps_stop_msg `{PyFormat} eps op sbe i x_next x1 m :
  Secant.eps_stop eps op sbe i x_next x1 = Ok (Some m) ->
  has_message m = true /\ secant_status_ok m = true.
Proof.
  unfold Secant.eps_stop.
  destruct sbe; [|discriminate].
  destruct (fgt eps (Fin 1)).
  - destruct (Secant.rel_error _ _) as [rel|e]; cbn [bind]; [|discriminate].
    destruct (Secant.rel_hit op rel eps); intros Hm; inversion Hm; subst; split; reflexivity.
  - destruct (Secant.abs_hit op i _ eps); intros Hm; inversion Hm; subst; split; reflexivity.
Qed.

Lemma secant_body_returns `{PyFormat} f eps op max_iter sbe dp j t :
  forallb secant_status_ok t.(Secant.table) = true ->
  match Secant.body f eps op max_iter sbe dp j t with
  | Ok (Continue t') => forallb secant_status_ok t'.(Secant.table) = true
  | Ok (Return o) => ends_with_message (snd o) = true /\
                     forallb secant_status_ok (snd o) = true
  | Err _ => True
  end.
Proof.
  intros Ht; unfold Secant.body.
  destruct (flt _ e_10).
  { simpl; rewrite ends_with_message_app1, forallb_app, Ht; split; reflexivity. }
  destruct (fdiv _ _) as [q|e]; cbn [bind]; [|exact I].
  destruct (f _) as [fx|e].
  2: { destruct (Secant.inner_caught e); [|exact I].
       simpl; rewrite ends_with_message_app1, forallb_app, Ht; split; reflexivity. }
  destruct (is_nan _ || is_inf _).
  { simpl; rewrite ends_with_message_app1, forallb_app, Ht; split; [reflexivity|].
    destruct (is_nan _); reflexivity. }
  destruct (if flt _ e_10 then _ else _) as [err|e]; cbn [bind]; [|exact I].
  destruct (flt (fabs fx) e_10).
  { simpl; rewrite ends_with_message_app2, forallb_app, Ht; split; [reflexivity|].
    destruct (j <? max_iter)%Z; reflexivity. }
  destruct (Secant.eps_stop _ _ _ _ _ _) as [[m|]|e] eqn:Es; cbn [bind]; [| |exact I].
  - destruct (secant_eps_stop_msg _ _ _ _ _ _ _ Es) as [Hm Hs].
    simpl; rewrite ends_with_message_app2, forallb_app, Ht; split; [exact Hm|].
    simpl; rewrite Hs, andb_true_r; destruct (j <? max_iter)%Z; reflexivity.
  - simpl; rewrite forallb_app, Ht; destruct (j <? max_iter)%Z; reflexivity.
Qed.

Lemma secant_solve_trace `{PyFormat} f xa xb eps op max_iter sbe dp :
  let t := snd (fst (Secant.solve f xa xb eps op max_iter sbe dp)) in
  ends_with_message t = true /\ forallb secant_status_ok t = true.
Proof.
  unfold Secant.solve, Secant.solve_try.
  destruct (let* a := f xa in _) as [[a b]|e]; [|split; reflexivity].
  destruct (flt (fabs a) e_10); [split; reflexivity|].
  destruct (flt (fabs b) e_10); [split; reflexivity|].
  match goal with
  | |- context [for_range ?bd ?i ?n ?s0] =>
      assert (Hinv := for_range_inv
                        (fun t => forallb secant_status_ok t.(Secant.table) = true)
                        (fun o => ends_with_message (snd o) = true /\
                                  forallb secant_status_ok (snd o) = true)
                        bd i n s0 eq_refl);
      destruct (for_range bd i n s0) as [r k]
  end.
  assert (Hb : forall j t,
            forallb secant_status_ok t.(Secant.table) = true ->
            match Secant.body f eps op max_iter sbe dp j t with
            | Ok (Continue t') => forallb secant_status_ok t'.(Secant.table) = true
            | Ok (Return o) => ends_with_message (snd o) = true /\
                               forallb secant_status_ok (snd o) = true
            | Err _ => True
            end) by (intros; apply secant_body_returns; assumption).
  specialize (Hinv Hb); simpl in Hinv.
  destruct r as [[s|[root t]]|e]; simpl.
  - rewrite ends_with_message_app1, forallb_app, Hinv; split; reflexivity.
  - exact Hinv.
  - split; reflexivity.
Qed.

(** ** Fixed Point *)

Lemma fixed_point_loop_bound `{PyFormat} fuel g eps max_iter dp xi ic err t :
  (Nat.max 1 (Z.to_nat (max_iter - ic)) <= fuel)%nat ->
  exists o k, FixedPoint.loop fuel g eps max_iter dp xi ic err t = Some (o, k) /\
              (k <= Nat.max 1 (Z.to_nat (max_iter - ic)))%nat.
Proof.
  revert xi ic err t; induction fuel as [|fuel IH]; intros xi ic err t Hf; [lia|].
  cbn [FixedPoint.loop].
  destruct (g xi) as [gx|e]; [|eexists _, 1%nat; split; [reflexivity|lia]].
  destruct (is_nan gx); [eexists _, 1%nat; split; [reflexivity|lia]|].
  destruct (if (0 <? ic)%Z then _ else _) as [err'|e];
    [|eexists _, 1%nat; split; [reflexivity|lia]].
  destruct (negb _ || (max_iter <=? ic + 1)%Z) eqn:Hb;
    [eexists _, 1%nat; split; [reflexivity|lia]|].
  apply orb_false_iff in Hb as [_ Hb]; apply Z.leb_gt in Hb.
  match goal with
  | |- context [FixedPoint.loop fuel g eps max_iter dp ?x ?n ?e ?tb] =>
      destruct (IH x n e tb) as (o & k & Hl & Hk); [lia|]
  end.
  rewrite Hl; exists o, (S k); split; [reflexivity|lia].
Qed.

Lemma fixed_point_loop_ends `{PyFormat} fuel g eps max_iter dp xi ic err t x t' k :
  FixedPoint.loop fuel g eps max_iter dp xi ic err t = Some ((Some x, t'), k) ->
  ends_with_iteration_row t' = true.
Proof.
  revert xi ic err t k; induction fuel as [|fuel IH]; intros xi ic err t k; simpl; [discriminate|].
  destruct (g xi) as [gx|e]; [|discriminate].
  destruct (is_nan gx); [discriminate|].
  destruct (if (0 <? ic)%Z then _ else _) as [err'|e]; [|discriminate].
  destruct (negb _ || _).
  - intros Hl; injection Hl as _ <- _.
    unfold ends_with_iteration_row; rewrite rev_app_distr; reflexivity.
  - destruct (FixedPoint.loop fuel _ _ _ _ _ _ _ _) as [[o k']|] eqn:Hl; [|discriminate].
    intros He; injection He as -> _; exact (IH _ _ _ _ _ Hl).
Qed.

(** ** Newton-Raphson *)

Lemma nr_step_explained `{PyFormat} f f' dp ic x ed t :
  match NewtonRaphson.newton_step f f' dp ic x ed t with
  | Ok (inl r) => nr_explained r = true
  | _ => True
  end.
Proof.
  unfold NewtonRaphson.newton_step.
  destruct (f x) as [fx|e]; cbn [bind]; [|exact I].
  destruct (f' x) as [fpx|e]; cbn [bind]; [|exact I].
  destruct (flt (fabs fpx) e_10 || is_nan fpx).
  - destruct (flt (fabs fpx) e_10); reflexivity.
  - destruct (is_nan fx); [reflexivity|].
    destruct (fdiv fx fpx); exact I.
Qed.

Lemma nr_body_explained `{PyFormat} f f' eps op sbe dp sc cc tol i s :
  match NewtonRaphson.body f f' eps op sbe dp sc cc tol i s with
  | Ok (Return r) => nr_explained r = true
  | _ => True
  end.
Proof.
  unfold NewtonRaphson.body.
  generalize (nr_step_explained f f' dp (i + 1)%Z (NewtonRaphson.x_current s)
                (NewtonRaphson.error_display s) (NewtonRaphson.table s)).
  destruct (NewtonRaphson.newton_step _ _ _ _ _ _ _) as [[r|[[fx fpx] xc]]|e];
    intros Hs; [exact Hs| |reflexivity].
  destruct (is_nan xc || is_inf xc); [reflexivity|].
  destruct (NewtonRaphson.relative_error _ _) as [rel|e]; [|reflexivity].
  destruct (f xc) as [fc|e]; [|reflexivity].
  destruct (flt (fabs fc) e_10); [reflexivity|].
  split_ifs; reflexivity.
Qed.

Lemma nr_solve_explained `{PyFormat} f f' x0 eps_opt op mi sbe dp sc cc tol :
  nr_explained (fst (NewtonRaphson.solve f f' x0 eps_opt op mi sbe dp sc cc tol)) = true.
Proof.
  unfold NewtonRaphson.solve.
  destruct (f x0) as [fx|e]; [|reflexivity].
  destruct (flt (fabs fx) e_10); [reflexivity|].
  match goal with
  | |- context [for_range ?bd ?i ?n ?s0] =>
      assert (Hinv := for_range_inv (fun _ => True) (fun r => nr_explained r = true)
                        bd i n s0 I);
      destruct (for_range bd i n s0) as [r k]
  end.
  simpl; destruct r as [[s|o]|e]; try reflexivity.
  exact (Hinv (fun j t _ => nr_body_explained _ _ _ _ _ _ _ _ _ j t)).
Qed.

(** ** Iteration counts *)

Ltac count_loop :=
  match goal with
  | |- context [for_range ?bd ?i ?n ?s0] =>
      let Hc := fresh "Hc" in
      pose proof (for_range_count bd i n s0) as Hc;
      destruct (for_range bd i n s0); simpl in *; lia
  end.

Lemma bisection_count `{PyFormat} f xl xu eps op max_iter sbe dp :
  (snd (Bisection.solve f xl xu eps op max_iter sbe dp) <= Z.to_nat max_iter)%nat.
Proof.
  unfold Bisection.solve.
  destruct (let* a := f xl in _) as [[a b]|e]; [|simpl; lia].
  destruct (fgt _ _); [simpl; lia|].
  destruct (flt (fabs a) e_10); [simpl; lia|].
  destruct (flt (fabs b) e_10); [simpl; lia|].
  count_loop.
Qed.

Lemma false_position_count `{PyFormat} f xl xu eps op max_iter sbe dp :
  (snd (FalsePosition.solve f xl xu eps op max_iter sbe dp) <= Z.to_nat max_iter)%nat.
Proof.
  unfold FalsePosition.solve.
  destruct (let* a := f xl in _) as [[a b]|e]; [|simpl; lia].
  destruct (fgt _ _); [simpl; lia|].
  destruct (flt (fabs a) e_10); [simpl; lia|].
  destruct (flt (fabs b) e_10); [simpl; lia|].
  count_loop.
Qed.

Lemma secant_count `{PyFormat} f xa xb eps op max_iter sbe dp :
  (snd (Secant.solve f xa xb eps op max_iter sbe dp) <= Z.to_nat max_iter)%nat.
Proof.
  unfold Secant.solve, Secant.solve_try.
  destruct (let* a := f xa in _) as [[a b]|e]; [|simpl; lia].
  destruct (flt (fabs a) e_10); [simpl; lia|].
  destruct (flt (fabs b) e_10); [simpl; lia|].
  match goal with
  | |- context [for_range ?bd ?i ?n ?s0] =>
      pose proof (for_range_count bd i n s0) as Hc;
      destruct (for_range bd i n s0) as [r k]; simpl in *
  end.
  destruct r as [[?|?]|?]; simpl; lia.
Qed.

Lemma nr_count `{PyFormat} f f' x0 eps_opt op mi sbe dp sc cc tol :
  (snd (NewtonRaphson.solve f f' x0 eps_opt op mi sbe dp sc cc tol)
     <= Z.to_nat (match mi with Some m => m | None => 50%Z end))%nat.
Proof.
  unfold NewtonRaphson.solve.
  destruct (f x0) as [fx|e]; [|simpl; lia].
  destruct (flt (fabs fx) e_10); [simpl; lia|].
  count_loop.
Qed.

Lemma fixed_point_bound `{PyFormat} derived x0 eps op max_iter sbe dp fuel :
  (Nat.max 1 (Z.to_nat max_iter) <= fuel)%nat ->
  exists o k, FixedPoint.solve derived x0 eps op max_iter sbe dp fuel = Some (o, k) /\
              (k <= Nat.max 1 (Z.to_nat max_iter))%nat.
Proof.
  intros Hf; destruct derived as [g|m]; cbn [FixedPoint.solve].
  - pose proof (fixed_point_loop_bound fuel g eps max_iter dp x0 0 (Fin 100) []) as Hl.
    rewrite Z.sub_0_r in Hl; exact (Hl Hf).
  - eexists _, O; split; [reflexivity|lia].
Qed.

(** ** The claims *)

(** C2 (amended): every solver stops within its iteration cap, except
    that the Fixed Point loop always runs its first pass: Bisection, False
    Position and Secant perform at most [max(max_iter, 0)] iterations,
    Newton-Raphson at most [max(max_iter, 0)] (50 when [max_iter] is not
    given), and Fixed Point, for every [g], finishes within
    [max(max_iter, 1)] passes of its [while True] loop, which is also the
    bound on its iterations. *)
Theorem iteration_caps `{PyFormat} :
  (forall f xl xu eps op max_iter sbe dp,
     (snd (Bisection.solve f xl xu eps op max_iter sbe dp) <= Z.to_nat max_iter)%nat /\
     (snd (FalsePosition.solve f xl xu eps op max_iter sbe dp) <= Z.to_nat max_iter)%nat) /\
  (forall f xa xb eps op max_iter sbe dp,
     (snd (Secant.solve f xa xb eps op max_iter sbe dp) <= Z.to_nat max_iter)%nat) /\
  (forall f f' x0 eps_opt op mi sbe dp sc cc tol,
     (snd (NewtonRaphson.solve f f' x0 eps_opt op mi sbe dp sc cc tol)
        <= Z.to_nat (match mi with Some m => m | None => 50%Z end))%nat) /\
  (forall derived x0 eps op max_iter sbe dp fuel,
     (Nat.max 1 (Z.to_nat max_iter) <= fuel)%nat ->
     exists o k, FixedPoint.solve derived x0 eps op max_iter sbe dp fuel = Some (o, k) /\
                 (k <= Nat.max 1 (Z.to_nat max_iter))%nat).
Proof.
  split; [intros; split; [apply bisection_count|apply false_position_count]|].
  split; [intros; apply secant_count|].
  split; [intros; apply nr_count|].
  intros; apply fixed_point_bound; assumption.
Qed.

Lemma iteration_caps_witness :
  exists o k, FixedPoint.solve (inl halve) (Fin 1) (Fin (1 # 10000)) "<=" 3 true 6 10
                = Some (o, k) /\ (k <= Nat.max 1 (Z.to_nat 3))%nat.
Proof.
  apply (proj2 (proj2 (proj2 iteration_caps))).
  vm_compute; lia.
Defined.

(** C2 counterexample: with [max_iter = 0] and [g(x) = x/2], Fixed Point
    still performs one iteration. *)
Lemma fixed_point_exceeds_cap :
  option_map snd (FixedPoint.solve (inl halve) (Fin 1) (Fin (1 # 10000)) "<=" 0 true 6 10)
    = Some 1%nat.
Proof. vm_compute; reflexivity. Qed.

Lemma bisection_midpoint_update_witness :
  exists f_xr, sq4 (midpoint (Fin 0) (Fin 3)) = Ok f_xr.
Proof.
  destruct (bisection_midpoint_update sq4 (Fin (1 # 10000)) "<=" true 6 0
              (Bisection.mk (Fin 0) (Fin 3) (Fin (-4)) (Fin 5) None (Fin 0) NoErr [])
              _ eq_refl) as [fx [Hf _]].
  exists fx; exact Hf.
Defined.

(** C9 (amended): the traces of Bisection and False Position (whenever
    they return rather than raise) and of Secant end with a row holding a
    non-empty [Message], [Error] or [Warning] text, and a Newton-Raphson
    result carries exactly one non-empty message; a Fixed Point run that
    stops on its loop condition ends with its last iteration row instead. *)
Theorem traces_explained `{PyFormat} :
  (forall f xl xu eps op max_iter sbe dp root t,
     fst (Bisection.solve f xl xu eps op max_iter sbe dp) = Ok (root, t) ->
     ends_with_message t = true) /\
  (forall f xl xu eps op max_iter sbe dp root t,
     fst (FalsePosition.solve f xl xu eps op max_iter sbe dp) = Ok (root, t) ->
     ends_with_message t = true) /\
  (forall f xa xb eps op max_iter sbe dp,
     ends_with_message (snd (fst (Secant.solve f xa xb eps op max_iter sbe dp))) = true) /\
  (forall f f' x0 eps_opt op mi sbe dp sc cc tol,
     nr_explained (fst (NewtonRaphson.solve f f' x0 eps_opt op mi sbe dp sc cc tol)) = true) /\
  (forall g x0 eps op max_iter sbe dp fuel x t k,
     FixedPoint.solve (inl g) x0 eps op max_iter sbe dp fuel = Some ((Some x, t), k) ->
     ends_with_iteration_row t = true).
Proof.
  split; [exact bisection_solve_message|].
  split; [exact false_position_solve_message|].
  split; [intros; apply secant_solve_trace|].
  split; [intros; apply nr_solve_explained|].
  intros g x0 eps op max_iter sbe dp fuel x t k; apply fixed_point_loop_ends.
Qed.

Lemma traces_explained_witness :
  ends_with_message
    (match fst (Bisection.solve sq4 (Fin 0) (Fin 3) (Fin (1 # 10000)) "<=" 2 true 6) with
     | Ok (_, t) => t | Err _ => [] end) = true /\
  ends_with_message
    (match fst (FalsePosition.solve sq4 (Fin 0) (Fin 3) (Fin (1 # 10000)) "<=" 2 true 6) with
     | Ok (_, t) => t | Err _ => [] end) = true /\
  ends_with_iteration_row
    (match FixedPoint.solve (inl halve) (Fin 1) (Fin (1 # 10000)) "<=" 3 true 6 10 with
     | Some ((_, t), _) => t | None => [] end) = true.
Proof.
  destruct traces_explained as (Hb & Hf & _ & _ & Hx).
  split; [exact (Hb sq4 (Fin 0) (Fin 3) (Fin (1 # 10000)) "<=" 2%Z true 6%Z _ _ eq_refl)|].
  split; [exact (Hf sq4 (Fin 0) (Fin 3) (Fin (1 # 10000)) "<=" 2%Z true 6%Z _ _ eq_refl)|].
  exact (Hx halve (Fin 1) (Fin (1 # 10000)) "<=" 3%Z true 6%Z 10%nat _ _ _ eq_refl).
Defined.

(** C9 counterexample: Fixed Point with [g(x) = x/2], [x0 = 1] and
    [max_iter = 3] stops on its cap with an iteration row last and no
    explanation row. *)
Lemma fixed_point_no_message :
  option_map (fun o => ends_with_message (snd (fst o)))
    (FixedPoint.solve (inl halve) (Fin 1) (Fin (1 # 10000)) "<=" 3 true 6 10)
    = Some false.
Proof. vm_compute; reflexivity. Qed.












(** C10 (amended): when [f(x_l)] or [f(x_u)] is NaN the entry test
    [f(x_l)·f(x_u) > 0] is false, so no bracketing error is reported; if
    neither bound passes the [|f| < 1e-10] root test and [max_iter >= 1],
    Bisection goes on to iterate at least once. *)
Theorem nan_bound_iterates `{PyFormat} f xl xu eps op max_iter sbe dp a b :
  f xl = Ok a -> f xu = Ok b -> is_nan a || is_nan b = true ->
  fgt (fmul a b) (Fin 0) = false /\
  (flt (fabs a) e_10 = false -> flt (fabs b) e_10 = false -> (1 <= max_iter)%Z ->
   (1 <= snd (Bisection.solve f xl xu eps op max_iter sbe dp))%nat).
Proof.
  intros Ha Hb Hn.
  assert (Hp : fgt (fmul a b) (Fin 0) = false) by (rewrite (fmul_nan a b Hn); reflexivity).
  split; [exact Hp|].
  intros Hfa Hfb Hi; unfold Bisection.solve.
  rewrite Ha, Hb; cbn [bind]; rewrite Hp, Hfa, Hfb.
  pose proof (for_range_enters (Bisection.body f eps op sbe dp) 0 (Z.to_nat max_iter)
                (Bisection.mk xl xu a b None (Fin 0) NoErr [])) as He.
  destruct (for_range _ _ _ _) as [r k]; simpl in *; apply He; lia.
Qed.

Lemma nan_bound_iterates_witness :
  (1 <= snd (Bisection.solve nan_below_0 (Fin (-1)) (Fin 4) (Fin (1 # 10000)) "<=" 5 true 6))%nat.
Proof.
  apply (proj2 (nan_bound_iterates nan_below_0 (Fin (-1)) (Fin 4) (Fin (1 # 10000)) "<=" 5
                  true 6 _ _ eq_refl eq_refl eq_refl)); [reflexivity|reflexivity|lia].
Defined.

(** C10 counterexample: with [f(x_l)] NaN and [f(x_u) = 0] Bisection
    returns [x_u] without iterating. *)
Lemma nan_bound_no_iteration :
  nan_below_0 (Fin (-1)) = Ok NaN /\
  Bisection.solve nan_below_0 (Fin (-1)) (Fin 1) (Fin (1 # 10000)) "<=" 5 true 6
    = (Ok (Some (Fin 1), [msg_row ("Upper bound " ++ py_str (Fin 1) ++ " is already a root")
                                  "SUCCESS" "f(xu) ≈ 0"]), O).
Proof. split; reflexivity. Qed.

(** ** Epsilon tests *)

Lemma bisection_rel_stop_some `{PyFormat} op rel eps :
  is_some (Bisection.rel_stop op rel eps) = check_convergence rel eps op.
Proof. unfold Bisection.rel_stop, check_convergence; split_ifs; reflexivity. Qed.

Lemma bisection_abs_stop_some `{PyFormat} op i d eps :
  is_some (Bisection.abs_stop op i d eps) = check_convergence d eps op.
Proof. unfold Bisection.abs_stop, check_convergence; split_ifs; reflexivity. Qed.

Ltac op_cases op :=
  unfold check_convergence;
  destruct (String.eqb op "<=") eqn:E1;
    [apply String.eqb_eq in E1; subst op; simpl; split_ifs; reflexivity|];
  destruct (String.eqb op ">=") eqn:E2;
    [apply String.eqb_eq in E2; subst op; simpl; split_ifs; reflexivity|];
  destruct (String.eqb op "<") eqn:E3;
    [apply String.eqb_eq in E3; subst op; simpl; split_ifs; reflexivity|];
  destruct (String.eqb op ">") eqn:E4;
    [apply String.eqb_eq in E4; subst op; simpl; split_ifs; reflexivity|];
  destruct (String.eqb op "=") eqn:E5;
    [apply String.eqb_eq in E5; subst op; simpl; split_ifs; reflexivity|];
  reflexivity.

Lemma secant_rel_hit_some `{PyFormat} op rel eps :
  is_some (Secant.rel_hit op rel eps) = check_convergence rel eps op.
Proof. unfold Secant.rel_hit; op_cases op. Qed.

Lemma secant_abs_hit_some `{PyFormat} op i d eps :
  is_some (Secant.abs_hit op i d eps) = check_convergence d eps op.
Proof. unfold Secant.abs_hit; op_cases op. Qed.

Lemma bisection_rel_error_sel d x :
  Bisection.rel_error d x =
  Ok (if flt e_10 (fabs x) then
        match fdiv d (fabs x) with Ok q => fmul q (Fin 100) | Err _ => d end
      else d).
Proof.
  unfold Bisection.rel_error, fgt.
  destruct (flt e_10 (fabs x)) eqn:E; [|reflexivity].
  destruct (fdiv_fabs_ok d x E) as [q Hq]; rewrite Hq; reflexivity.
Qed.

Lemma secant_rel_error_sel d x :
  Secant.rel_error d x =
  Ok (if flt e_10 (fabs x) then
        match fdiv d (fabs x) with Ok q => fmul q (Fin 100) | Err _ => d end
      else d).
Proof.
  unfold Secant.rel_error, fgt.
  destruct (flt e_10 (fabs x)) eqn:E; [|reflexivity].
  destruct (fdiv_fabs_ok d x E) as [q Hq]; rewrite Hq; reflexivity.
Qed.

(** C7: with [stop_by_eps] set, the epsilon test of Bisection (from its
    second iteration on) and of Secant stops exactly when the selected
    error passes the operator test against [eps]: for [eps > 1] the
    relative percentage error [|x_{i+1} - x_i| / |x_{i+1}| * 100] (the
    absolute difference when [|x_{i+1}| <= 1e-10]), for [eps <= 1] the
    absolute difference [|x_{i+1} - x_i|]. *)
Theorem eps_selects_error `{PyFormat} :
  (forall eps op i xr xr_old, (0 < i)%Z ->
     exists stop, Bisection.eps_stop eps op true i (fabs (fsub xr xr_old)) xr = Ok stop /\
     is_some stop = check_convergence (selected_error eps (fabs (fsub xr xr_old)) xr) eps op) /\
  (forall eps op i x_next x1,
     exists stop, Secant.eps_stop eps op true i x_next x1 = Ok stop /\
     is_some stop = check_convergence (selected_error eps (fabs (fsub x_next x1)) x_next) eps op).
Proof.
  split.
  - intros eps op i xr xr_old Hi.
    unfold Bisection.eps_stop, selected_error.
    replace ((0 <? i)%Z && true) with true by (symmetry; apply andb_true_intro;
                                                split; [apply Z.ltb_lt; exact Hi|reflexivity]).
    destruct (fgt eps (Fin 1)).
    + rewrite bisection_rel_error_sel; cbn [bind].
      eexists; split; [reflexivity|apply bisection_rel_stop_some].
    + eexists; split; [reflexivity|apply bisection_abs_stop_some].
  - intros eps op i x_next x1.
    unfold Secant.eps_stop, selected_error.
    destruct (fgt eps (Fin 1)).
    + rewrite secant_rel_error_sel; cbn [bind].
      eexists; split; [reflexivity|].
      rewrite <- secant_rel_hit_some; destruct (Secant.rel_hit _ _ _); reflexivity.
    + eexists; split; [reflexivity|].
      rewrite <- (secant_abs_hit_some op i); destruct (Secant.abs_hit _ _ _ _); reflexivity.
Qed.

Lemma eps_selects_error_witness :
  exists stop, Bisection.eps_stop (Fin 5) "<=" true 1 (fabs (fsub (Fin 2) (Fin 1))) (Fin 2)
                 = Ok stop /\
  is_some stop = check_convergence (selected_error (Fin 5) (fabs (fsub (Fin 2) (Fin 1))) (Fin 2))
                   (Fin 5) "<=".
Proof.
  apply (proj1 (@eps_selects_error sample_format) (Fin 5) "<=" 1%Z (Fin 2) (Fin 1)); lia.
Defined.

(** ** Newton-Raphson update *)

Lemma fin_not_small_nonzero b :
  flt (fabs (Fin b)) e_10 = false -> Qeq_bool b 0 = false.
Proof.
  intros Hs; destruct (Qeq_bool b 0) eqn:E; [|reflexivity].
  apply Qeq_bool_iff in E.
  assert (Ha : Qabs b == 0) by (rewrite E; reflexivity).
  simpl in Hs; unfold Qltb in Hs.
  apply negb_false_iff, Qle_bool_iff in Hs.
  rewrite Ha in Hs; compute in Hs; exfalso; apply Hs; reflexivity.
Qed.

(** C5 (amended): once [f(x_i)] and [f'(x_i)] are evaluated, a
    Newton-Raphson step stops with status zero-derivative, keeping [x_i]
    as root and computing no new estimate, when [|f'(x_i)| < 1e-10] or
    [f'(x_i)] is NaN; otherwise it stops with status numerical-error and
    no root when [f(x_i)] is NaN; otherwise the new estimate is
    [x_i - f(x_i)/f'(x_i)], exactly so on finite values. *)
Theorem newton_update `{PyFormat} f f' dp ic x ed t fx fpx :
  f x = Ok fx -> f' x = Ok fpx ->
  (flt (fabs fpx) e_10 || is_nan fpx = true ->
   exists r, NewtonRaphson.newton_step f f' dp ic x ed t = Ok (inl r) /\
             NewtonRaphson.status_of r = NewtonRaphson.ZERO_DERIVATIVE /\
             NewtonRaphson.root r = Some x) /\
  (flt (fabs fpx) e_10 || is_nan fpx = false -> is_nan fx = true ->
   exists r, NewtonRaphson.newton_step f f' dp ic x ed t = Ok (inl r) /\
             NewtonRaphson.status_of r = NewtonRaphson.NUMERICAL_ERROR /\
             NewtonRaphson.root r = None) /\
  (flt (fabs fpx) e_10 || is_nan fpx = false -> is_nan fx = false ->
   exists q, fdiv fx fpx = Ok q /\
             NewtonRaphson.newton_step f f' dp ic x ed t = Ok (inr (fx, fpx, fsub x q))) /\
  (forall xq a b, x = Fin xq -> fx = Fin a -> fpx = Fin b -> flt (fabs fpx) e_10 = false ->
   NewtonRaphson.newton_step f f' dp ic x ed t = Ok (inr (fx, fpx, Fin (xq - a / b)))).
Proof.
  intros Hf Hf'; unfold NewtonRaphson.newton_step; rewrite Hf, Hf'; cbn [bind].
  split; [intros Hz; rewrite Hz; eexists; split; [reflexivity|split; reflexivity]|].
  split; [intros Hz Hn; rewrite Hz, Hn; eexists; split; [reflexivity|split; reflexivity]|].
  split.
  - intros Hz Hn; rewrite Hz, Hn.
    apply orb_false_iff in Hz as [Hz Hnan].
    destruct fpx as [b| | |]; try discriminate.
    + pose proof (fin_not_small_nonzero b Hz) as Hb.
      destruct fx; simpl; rewrite Hb; eexists; split; reflexivity.
    + destruct fx; eexists; split; reflexivity.
    + destruct fx; eexists; split; reflexivity.
  - intros xq a b -> -> -> Hz.
    rewrite Hz; simpl.
    rewrite (fin_not_small_nonzero b Hz); reflexivity.
Qed.

Lemma newton_update_witness :
  exists q, fdiv (Fin 5) (Fin 6) = Ok q /\
    NewtonRaphson.newton_step sq4 (fun x => Ok (fmul (Fin 2) x)) 6 1 (Fin 3) "---" []
      = Ok (inr (Fin 5, Fin 6, fsub (Fin 3) q)).
Proof.
  apply (proj1 (proj2 (proj2 (newton_update sq4 (fun x => Ok (fmul (Fin 2) x)) 6 1 (Fin 3)
                                 "---" [] (Fin 5) (Fin 6) eq_refl eq_refl))));
    reflexivity.
Defined.

(** C5 counterexample: with [f'(x) = NaN], [|f'(x)| < 1e-10] is false, yet
    the step stops with status zero-derivative and no new estimate. *)
Lemma nan_derivative_stops :
  flt (fabs NaN) e_10 = false /\
  exists r, NewtonRaphson.newton_step sq4 (fun _ => Ok NaN) 6 1 (Fin 3) "---" [] = Ok (inl r) /\
            NewtonRaphson.status_of r = NewtonRaphson.ZERO_DERIVATIVE.
Proof. split; [reflexivity|eexists; split; reflexivity]. Qed.

(** ** Oscillation *)

Lemma nr_body_after_checks `{PyFormat} f f' eps op sbe dp sc cc tol i s fx fpx x' rel fc :
  NewtonRaphson.newton_step f f' dp (i + 1) s.(NewtonRaphson.x_current)
    s.(NewtonRaphson.error_display) s.(NewtonRaphson.table) = Ok (inr (fx, fpx, x')) ->
  is_nan x' || is_inf x' = false ->
  NewtonRaphson.relative_error (fabs (fsub x' s.(NewtonRaphson.x_current))) x' = Ok rel ->
  f x' = Ok fc -> flt (fabs fc) e_10 = false ->
  (0 <? i)%Z && sbe &&
    NewtonRaphson.nr_check_convergence
      (NewtonRaphson.error_for_check sc (fabs (fsub x' s.(NewtonRaphson.x_current))) rel fx)
      eps op = false ->
  fgt (fabs x') big_15 = false ->
  (NewtonRaphson.oscillates s.(NewtonRaphson.previous_values) x' = true ->
   exists r, NewtonRaphson.body f f' eps op sbe dp sc cc tol i s = Ok (Return r) /\
             NewtonRaphson.status_of r = NewtonRaphson.OSCILLATING /\
             NewtonRaphson.root r = Some x') /\
  (NewtonRaphson.oscillates s.(NewtonRaphson.previous_values) x' = false ->
   exists s', NewtonRaphson.body f f' eps op sbe dp sc cc tol i s = Ok (Continue s') /\
              s'.(NewtonRaphson.x_current) = x' /\
              s'.(NewtonRaphson.previous_values) =
                NewtonRaphson.push5 s.(NewtonRaphson.previous_values) x').
Proof.
  intros Hs Hn Hr Hf Hc Hh Hd; unfold NewtonRaphson.body; cbv zeta.
  rewrite Hs, Hn, Hr, Hf, Hc, Hh, Hd.
  split; intros Ho; rewrite Ho; eexists; (split; [reflexivity|split; reflexivity]).
Qed.

(** C6 counterexample: Secant on [1000000 * (x**2 - 2)] from [1.4142] and
    [1.4143] without the epsilon test: its second estimate lies within
    [1e-6] of its first, yet the run goes on and ends with the
    maximum-iterations row. *)
Lemma secant_no_oscillation_stop :
  let r1 := fst (Secant.solve sq2m (Fin (14142 # 10000)) (Fin (14143 # 10000)) (Fin (1 # 10000)) "<=" 1 false 6) in
  let r2 := fst (Secant.solve sq2m (Fin (14142 # 10000)) (Fin (14143 # 10000)) (Fin (1 # 10000)) "<=" 2 false 6) in
  match fst r1, fst r2 with
  | Some x2, Some x3 => flt (fabs (fsub x3 x2)) e_6 = true
  | _, _ => False
  end /\
  assoc "Status" (last (snd r2) []) = Some (CStr "MAX_ITERATIONS").
Proof. vm_compute. split; reflexivity. Qed.

(** C6 (amended): only Newton-Raphson checks for oscillation.  In a
    Newton-Raphson iteration whose new estimate [x'] is finite and passes
    none of the earlier checks (exact root [|f(x')| < 1e-10], the epsilon
    test, divergence [|x'| > 1e15]), the method stops with status
    oscillating and root [x'] when at least two estimates are stored and
    one lies within [1e-6] of [x']; the store keeps the last estimates
    through [push5].  Secant writes no oscillation status: every [Status]
    of its trace is one of [secant_statuses]. *)
Theorem oscillation_check `{PyFormat} :
  (forall f f' eps op sbe dp sc cc tol i s fx fpx x' rel fc,
     NewtonRaphson.newton_step f f' dp (i + 1) s.(NewtonRaphson.x_current)
       s.(NewtonRaphson.error_display) s.(NewtonRaphson.table) = Ok (inr (fx, fpx, x')) ->
     is_nan x' || is_inf x' = false ->
     NewtonRaphson.relative_error (fabs (fsub x' s.(NewtonRaphson.x_current))) x' = Ok rel ->
     f x' = Ok fc -> flt (fabs fc) e_10 = false ->
     (0 <? i)%Z && sbe &&
       NewtonRaphson.nr_check_convergence
         (NewtonRaphson.error_for_check sc (fabs (fsub x' s.(NewtonRaphson.x_current))) rel fx)
         eps op = false ->
     fgt (fabs x') big_15 = false ->
     (2 <= length s.(NewtonRaphson.previous_values))%nat ->
     (exists p, In p s.(NewtonRaphson.previous_values) /\ flt (fabs (fsub x' p)) e_6 = true) ->
     exists r, NewtonRaphson.body f f' eps op sbe dp sc cc tol i s = Ok (Return r) /\
               NewtonRaphson.status_of r = NewtonRaphson.OSCILLATING /\
               NewtonRaphson.root r = Some x') /\
  (forall f xa xb eps op max_iter sbe dp,
     forallb secant_status_ok (snd (fst (Secant.solve f xa xb eps op max_iter sbe dp))) = true).
Proof.
  split.
  - intros f f' eps op sbe dp sc cc tol i s fx fpx x' rel fc Hs Hn Hr Hf Hc Hh Hd Hl Hp.
    apply (nr_body_after_checks f f' eps op sbe dp sc cc tol i s fx fpx x' rel fc
             Hs Hn Hr Hf Hc Hh Hd).
    unfold NewtonRaphson.oscillates; apply andb_true_intro; split.
    + apply Nat.leb_le; exact Hl.
    + apply existsb_exists; exact Hp.
  - intros; apply secant_solve_trace.
Qed.

Lemma oscillation_check_witness :
  exists r,
    NewtonRaphson.body sq4 (fun x => Ok (fmul (Fin 2) x)) (Fin (1 # 10000)) "<=" false 6
      "relative" false 3 0
      (NewtonRaphson.mk (Fin 3) 0 "---" 0 [fsub (Fin 3) (Fin (5 / 6)); Fin 1] [])
      = Ok (Return r) /\
    NewtonRaphson.status_of r = NewtonRaphson.OSCILLATING /\
    NewtonRaphson.root r = Some (fsub (Fin 3) (Fin (5 / 6))).
Proof.
  apply (proj1 oscillation_check sq4 (fun x => Ok (fmul (Fin 2) x)) (Fin (1 # 10000)) "<="
           false 6%Z "relative" false 3%Z 0%Z
           (NewtonRaphson.mk (Fin 3) 0 "---" 0 [fsub (Fin 3) (Fin (5 / 6)); Fin 1] [])
           (Fin 5) (Fin 6) (fsub (Fin 3) (Fin (5 / 6))) _ _
           eq_refl eq_refl eq_refl eq_refl eq_refl eq_refl eq_refl).
  - simpl; lia.
  - exists (fsub (Fin 3) (Fin (5 / 6))); split; [left; reflexivity|reflexivity].
Defined.

(** ** Solver *)

Lemma root_method_cases m :
  Solver.mem m root_methods = true ->
  m = "Bisection" \/ m = "False Position" \/ m = "Fixed Point" \/
  m = "Newton-Raphson" \/ m = "Secant".
Proof.
  unfold Solver.mem, root_methods; simpl.
  destruct (String.eqb_spec m "Bisection"); [tauto|].
  destruct (String.eqb_spec m "False Position"); [tauto|].
  destruct (String.eqb_spec m "Fixed Point"); [tauto|].
  destruct (String.eqb_spec m "Newton-Raphson"); [tauto|].
  destruct (String.eqb_spec m "Secant"); [tauto|].
  discriminate.
Qed.

Lemma is_number_has k p : Solver.is_number (Solver.get k p) = true -> Solver.has k p = true.
Proof. unfold Solver.has; destruct (Solver.get k p); [reflexivity|discriminate]. Qed.

(** The Solver rejects a root-finding call, with no root and one row,
    exactly when the function text or the method's parameters fail their
    checks (the latter include [x_l < x_u] for the bracketing methods and
    distinct seeds for Secant); otherwise it calls the method, passing the
    threshold through whatever its value. *)
Theorem solver_validation :
  (forall vf m func p eps_opt op mi sb dpo msg,
     Solver.mem m root_methods = true ->
     vf func = Some msg \/ (vf func = None /\ Solver.validate_parameters m p = Some msg) ->
     Solver.dispatch vf m func p eps_opt op mi sb dpo
       = Solver.Rejected None [[("Error", CStr msg)]]) /\
  (forall vf m func p eps_opt op mi sb dpo,
     Solver.mem m root_methods = true ->
     vf func = None -> Solver.validate_parameters m p = None ->
     exists c, Solver.dispatch vf m func p eps_opt op mi sb dpo = Solver.Invoke c /\
               call_eps c = match eps_opt with Some e => e | None => Fin (1 # 10000) end) /\
  (forall m p,
     Solver.mem m ["Bisection"; "False Position"] = true ->
     Solver.is_number (Solver.get "xl" p) = true -> Solver.is_number (Solver.get "xu" p) = true ->
     fge (Solver.num (Solver.get "xl" p)) (Solver.num (Solver.get "xu" p)) = true ->
     Solver.validate_parameters m p = Some "xl must be less than xu") /\
  (forall p,
     Solver.is_number (Solver.get "xi_minus_1" p) = true ->
     Solver.is_number (Solver.get "xi" p) = true ->
     feq (Solver.num (Solver.get "xi_minus_1" p)) (Solver.num (Solver.get "xi" p)) = true ->
     Solver.validate_parameters "Secant" p = Some "xi_minus_1 must be different from xi").
Proof.
  split; [|split; [|split]].
  - intros vf m func p eps_opt op mi sb dpo msg Hm Hv.
    apply root_method_cases in Hm.
    destruct Hv as [Hv|[Hv Hp]];
      (destruct Hm as [->|[->|[->|[->| ->]]]]; unfold Solver.dispatch; simpl;
       rewrite Hv; try rewrite Hp; reflexivity).
  - intros vf m func p eps_opt op mi sb dpo Hm Hv Hp.
    apply root_method_cases in Hm.
    destruct Hm as [->|[->|[->|[->| ->]]]]; unfold Solver.dispatch; simpl;
      rewrite Hv, Hp; eexists; split; reflexivity.
  - intros m p Hm Hl Hu Hge.
    unfold Solver.validate_parameters; rewrite Hm.
    rewrite (is_number_has _ _ Hl), (is_number_has _ _ Hu), Hl, Hu, Hge; reflexivity.
  - intros p Hl Hu Heq.
    unfold Solver.validate_parameters; simpl.
    rewrite (is_number_has _ _ Hl), (is_number_has _ _ Hu), Hl, Hu, Heq; reflexivity.
Qed.

Lemma solver_validation_witness :
  Solver.dispatch (fun _ => None) "Bisection" "x**2 - 4"
    [("xl", Solver.PyFloat (Fin 3)); ("xu", Solver.PyFloat (Fin 0))] None "<=" None None None
    = Solver.Rejected None [[("Error", CStr "xl must be less than xu")]].
Proof.
  apply (proj1 solver_validation); [reflexivity|].
  right; split; [reflexivity|].
  apply (proj1 (proj2 (proj2 solver_validation))); reflexivity.
Defined.

(** C8: a Bisection call with threshold [-1] (and, alike, one above the
    declared maximum [100]) is not rejected: the Solver calls the method. *)
Lemma negative_eps_dispatched :
  Solver.dispatch (fun _ => None) "Bisection" "x**2 - 4"
    [("xl", Solver.PyFloat (Fin 0)); ("xu", Solver.PyFloat (Fin 3))]
    (Some (Fin (-1))) "<=" None None None
    = Solver.Invoke (Solver.CallBracketing "Bisection" (Fin 0) (Fin 3) (Fin (-1)) "<=" 50 true 6) /\
  Solver.dispatch (fun _ => None) "Bisection" "x**2 - 4"
    [("xl", Solver.PyFloat (Fin 0)); ("xu", Solver.PyFloat (Fin 3))]
    (Some (Fin 1000)) "<=" None None None
    = Solver.Invoke (Solver.CallBracketing "Bisection" (Fin 0) (Fin 3) (Fin 1000) "<=" 50 true 6).
Proof. split; vm_compute; reflexivity. Qed.

(** ** Expression evaluation *)





(* ------------------------------------------------------------------ *)
(** ** Further properties of the code *)

Lemma Qle_bool_split a b : Qle_bool b a = Qltb b a || Qeq_bool b a.
Proof.
  unfold Qltb.
  destruct (Qle_bool b a) eqn:E1, (Qle_bool a b) eqn:E2, (Qeq_bool b a) eqn:E3;
    try reflexivity; simpl;
    rewrite ?Qle_bool_iff in *; rewrite ?Qeq_bool_iff in *;
    try (assert (~ a <= b) by (intro Hc; apply Qle_bool_iff in Hc; congruence));
    try (assert (~ b <= a) by (intro Hc; apply Qle_bool_iff in Hc; congruence));
    try (assert (~ b == a) by (intro Hc; apply Qeq_bool_iff in Hc; congruence));
    exfalso; lra.
Qed.

Lemma Qltb_total a b : Qltb a b = negb (Qltb b a || Qeq_bool b a).
Proof. rewrite <- Qle_bool_split; reflexivity. Qed.

Lemma flt_total x y : is_nan x || is_nan y = false -> flt x y = negb (flt y x || feq y x).
Proof.
  destruct x as [a| | |], y as [b| | |]; simpl; try discriminate; intros _; try reflexivity.
  apply Qltb_total.
Qed.

(** [NumericalMethodBase._check_convergence]: a NaN error or threshold
    never converges, an unknown operator never converges, and on non-NaN
    values the operators ["<"] and [">="] (and [">"] and ["<="]) give
    complementary answers. *)
Theorem check_convergence_props :
  (forall e eps op, is_nan e || is_nan eps = true -> check_convergence e eps op = false) /\
  (forall e eps op, Solver.mem op ["<="; ">="; "<"; ">"; "="] = false ->
     check_convergence e eps op = false) /\
  (forall e eps, is_nan e || is_nan eps = false ->
     check_convergence e eps "<" = negb (check_convergence e eps ">=") /\
     check_convergence e eps ">" = negb (check_convergence e eps "<=")).
Proof.
  split; [|split].
  - intros e eps op Hn; unfold check_convergence, fle, fge, fgt.
    destruct e, eps; try discriminate;
      repeat match goal with |- context [if ?c then _ else _] => destruct c end; reflexivity.
  - intros e eps op Hm; unfold check_convergence; unfold Solver.mem in Hm; simpl in Hm.
    repeat rewrite orb_false_iff in Hm.
    destruct Hm as (-> & -> & -> & -> & -> & _); reflexivity.
  - intros e eps Hn; unfold check_convergence, fge, fgt, fle; simpl.
    split; [apply flt_total; exact Hn|].
    apply flt_total; rewrite orb_comm; exact Hn.
Qed.

Lemma check_convergence_props_witness :
  check_convergence (Fin 1) (Fin 2) "<" = negb (check_convergence (Fin 1) (Fin 2) ">=") /\
  check_convergence (Fin 1) (Fin 2) ">" = negb (check_convergence (Fin 1) (Fin 2) "<=").
Proof. apply (proj2 (proj2 check_convergence_props)); reflexivity. Defined.

(** [NewtonRaphsonMethod._check_convergence] rejects a NaN or infinite
    error; on a finite error it agrees with the base class's check for
    every operator except ["="], whose tolerance is [1e-9] instead of
    [1e-10].  So an infinite error equal to an infinite threshold passes
    the base check under ["<="] but not Newton-Raphson's, and an error of
    [5e-10] against a threshold of [0] passes Newton-Raphson's ["="] but
    not the base one. *)
Theorem nr_check_convergence_props :
  (forall e eps op, is_nan e || is_inf e = true ->
     NewtonRaphson.nr_check_convergence e eps op = false) /\
  (forall q eps op, String.eqb op "=" = false ->
     NewtonRaphson.nr_check_convergence (Fin q) eps op = check_convergence (Fin q) eps op) /\
  NewtonRaphson.nr_check_convergence PInf PInf "<=" = false /\
  check_convergence PInf PInf "<=" = true /\
  NewtonRaphson.nr_check_convergence (Fin (5 # 10000000000)) (Fin 0) "=" = true /\
  check_convergence (Fin (5 # 10000000000)) (Fin 0) "=" = false.
Proof.
  split; [|split; [|repeat split; reflexivity]].
  - intros e eps op Hn; unfold NewtonRaphson.nr_check_convergence; rewrite Hn; reflexivity.
  - intros q eps op Hop; unfold NewtonRaphson.nr_check_convergence, check_convergence; simpl.
    rewrite Hop; reflexivity.
Qed.

Lemma counted_S n : counted (S n) = app (counted n) [Some (CInt (Z.of_nat n))].
Proof. unfold counted; rewrite seq_S, map_app; reflexivity. Qed.

Lemma fp_loop_trace `{PyFormat} fuel g eps max_iter dp xi table error x t k :
  (Z.of_nat (length table) < Z.max 1 max_iter)%Z ->
  iteration_numbers table = counted (length table) ->
  FixedPoint.loop fuel g eps max_iter dp xi (Z.of_nat (length table)) error table
    = Some ((Some x, t), k) ->
  length t = (length table + k)%nat /\ (1 <= k)%nat /\
  (Z.of_nat (length t) <= Z.max 1 max_iter)%Z /\
  iterate g k xi = Ok x /\ iteration_numbers t = counted (length t).
Proof.
  revert xi table error k; induction fuel as [|fuel IH]; intros xi table error k Hb Hn Hl;
    [discriminate|].
  cbn [FixedPoint.loop] in Hl.
  destruct (g xi) as [y|e] eqn:Eg; [|discriminate].
  destruct (is_nan y); [discriminate|].
  match type of Hl with
  | context [match ?c with Ok _ => _ | Err _ => _ end] =>
      match c with (if _ then _ else _) => destruct c as [err'|e]; [|discriminate] end
  end.
  set (r := [("Iteration", CInt (Z.of_nat (length table))) ; _ ; _ ; _ ; _]) in Hl.
  assert (Hlen : length (app table [r]) = S (length table)) by (rewrite length_app; simpl; lia).
  assert (Hnum : iteration_numbers (app table [r]) = counted (length (app table [r]))).
  { rewrite Hlen, counted_S, <- Hn; unfold iteration_numbers; rewrite map_app; reflexivity. }
  destruct (negb _ || _)%Z eqn:Estop.
  - injection Hl as <- <- <-. simpl iterate; rewrite Eg.
    refine (conj _ (conj _ (conj _ (conj eq_refl Hnum))));
      rewrite ?length_app; simpl; try lia.
  - replace (Z.of_nat (length table) + 1)%Z with (Z.of_nat (length (app table [r]))) in Hl
      by (rewrite length_app; simpl; lia).
    destruct (FixedPoint.loop _ _ _ _ _ _ _ _ _) as [[o k']|] eqn:El; [|discriminate].
    injection Hl as -> <-.
    apply orb_false_iff in Estop; destruct Estop as [E1 E2].
    apply Z.leb_gt in E2.
    assert (Hb' : (Z.of_nat (length (app table [r])) < Z.max 1 max_iter)%Z)
      by (rewrite length_app; simpl; lia).
    destruct (IH _ _ _ _ Hb' Hnum El) as (L1 & L2 & L3 & L4 & L5).
    rewrite length_app in L1; simpl in L1.
    repeat split; try lia; [|exact L5].
    simpl; rewrite Eg; exact L4.
Qed.

(** When Fixed Point returns a root from its loop, the trace has one row
    per pass, numbered [0, 1, ...], at least one and at most
    [max(1, max_iter)] of them, and the root is [g] applied to [x0] once
    per row. *)
Theorem fixed_point_trace `{PyFormat} g x0 eps op max_iter sbe dp fuel :
  match FixedPoint.solve (inl g) x0 eps op max_iter sbe dp fuel with
  | Some ((Some x, t), k) =>
      k = length t /\ (1 <= length t)%nat /\ (Z.of_nat (length t) <= Z.max 1 max_iter)%Z /\
      iterate g (length t) x0 = Ok x /\ iteration_numbers t = counted (length t)
  | _ => True
  end.
Proof.
  unfold FixedPoint.solve.
  destruct (FixedPoint.loop fuel g eps max_iter dp x0 0 (Fin 100) []) as [[[[x|] t] k]|] eqn:El;
    try exact I.
  destruct (fp_loop_trace fuel g eps max_iter dp x0 [] (Fin 100) x t k ltac:(simpl; lia)
              eq_refl El) as (L1 & L2 & L3 & L4 & L5).
  simpl in L1; subst k; repeat split; assumption.
Qed.

Lemma fp_loop_failure `{PyFormat} fuel g eps max_iter dp xi ic error table t k :
  FixedPoint.loop fuel g eps max_iter dp xi ic error table = Some ((None, t), k) ->
  exists m, t = [[("Error", CStr m)]].
Proof.
  revert xi ic error table k; induction fuel as [|fuel IH]; intros xi ic error table k Hl;
    [discriminate|].
  cbn [FixedPoint.loop] in Hl.
  destruct (g xi) as [y|e]; [|injection Hl as <- _; eexists; reflexivity].
  destruct (is_nan y); [injection Hl as <- _; eexists; reflexivity|].
  match type of Hl with
  | context [match ?c with Ok _ => _ | Err _ => _ end] =>
      match c with (if _ then _ else _) =>
        destruct c as [err'|e]; [|injection Hl as <- _; eexists; reflexivity] end
  end.
  destruct (negb _ || _)%Z; [discriminate|].
  destruct (FixedPoint.loop _ _ _ _ _ _ _ _ _) as [[o k']|] eqn:El; [|discriminate].
  injection Hl as -> _. exact (IH _ _ _ _ _ El).
Qed.

(** When Fixed Point returns no root, the trace is the single row
    [{"Error": message}]. *)
Theorem fixed_point_failure_rows `{PyFormat} derived x0 eps op max_iter sbe dp fuel :
  match FixedPoint.solve derived x0 eps op max_iter sbe dp fuel with
  | Some ((None, t), _) => exists m, t = [[("Error", CStr m)]]
  | _ => True
  end.
Proof.
  unfold FixedPoint.solve; destruct derived as [g|m]; [|eexists; reflexivity].
  destruct (FixedPoint.loop fuel g eps max_iter dp x0 0 (Fin 100) []) as [[[[x|] t] k]|] eqn:El;
    try exact I.
  exact (fp_loop_failure _ _ _ _ _ _ _ _ _ _ _ El).
Qed.



Lemma nr_step_shape `{PyFormat} f f' dp ic x ed t :
  match NewtonRaphson.newton_step f f' dp ic x ed t with
  | Ok (inl r) => nr_shape r = true
  | _ => True
  end.
Proof.
  unfold NewtonRaphson.newton_step.
  destruct (f x) as [fx|e]; cbn [bind]; [|exact I].
  destruct (f' x) as [fpx|e]; cbn [bind]; [|exact I].
  destruct (flt (fabs fpx) e_10 || is_nan fpx); [reflexivity|].
  destruct (is_nan fx); [reflexivity|].
  destruct (fdiv fx fpx); exact I.
Qed.

Lemma nr_body_shape `{PyFormat} f f' eps op sbe dp sc cc tol i s :
  match NewtonRaphson.body f f' eps op sbe dp sc cc tol i s with
  | Ok (Return r) => nr_shape r = true
  | _ => True
  end.
Proof.
  unfold NewtonRaphson.body.
  generalize (nr_step_shape f f' dp (i + 1)%Z (NewtonRaphson.x_current s)
                (NewtonRaphson.error_display s) (NewtonRaphson.table s)).
  destruct (NewtonRaphson.newton_step _ _ _ _ _ _ _) as [[r|[[fx fpx] xc]]|e];
    intros Hs; [exact Hs| |reflexivity].
  destruct (is_nan xc || is_inf xc); [reflexivity|].
  destruct (NewtonRaphson.relative_error _ _) as [rel|e]; [|reflexivity].
  destruct (f xc) as [fc|e]; [|reflexivity].
  destruct (flt (fabs fc) e_10); [reflexivity|].
  split_ifs; reflexivity.
Qed.

Lemma nr_solve_shape `{PyFormat} f f' x0 eps_opt op mi sbe dp sc cc tol :
  nr_shape (fst (NewtonRaphson.solve f f' x0 eps_opt op mi sbe dp sc cc tol)) = true.
Proof.
  unfold NewtonRaphson.solve.
  destruct (f x0) as [fx|e]; [|reflexivity].
  destruct (flt (fabs fx) e_10); [reflexivity|].
  match goal with
  | |- context [for_range ?bd ?i ?n ?s0] =>
      assert (Hinv := for_range_inv (fun _ => True) (fun r => nr_shape r = true)
                        bd i n s0 I);
      destruct (for_range bd i n s0) as [r k]
  end.
  simpl; destruct r as [[s|o]|e]; try reflexivity.
  exact (Hinv (fun j t _ => nr_body_shape _ _ _ _ _ _ _ _ _ j t)).
Qed.

(** A Newton-Raphson result always has an empty [iterations] list, has a
    root exactly when its status is CONVERGED, ZERO_DERIVATIVE or
    OSCILLATING, and never has status DOMAIN_ERROR. *)
Theorem newton_root_status `{PyFormat} f f' x0 eps_opt op mi sbe dp sc cc tol :
  let r := fst (NewtonRaphson.solve f f' x0 eps_opt op mi sbe dp sc cc tol) in
  NewtonRaphson.iterations r = [] /\
  (NewtonRaphson.root r <> None <-> status_has_root (NewtonRaphson.status_of r) = true) /\
  NewtonRaphson.status_of r <> NewtonRaphson.DOMAIN_ERROR.
Proof.
  intros r; pose proof (nr_solve_shape f f' x0 eps_opt op mi sbe dp sc cc tol) as Hs.
  fold r in Hs; unfold nr_shape in Hs.
  destruct (NewtonRaphson.iterations r); [|discriminate].
  destruct (NewtonRaphson.root r), (NewtonRaphson.status_of r); simpl in Hs;
    try discriminate; repeat split; repeat intro; simpl in *; congruence.
Qed.

Lemma dispatch_rejected_none vf m func p eps_opt op mi sbe dp r t :
  Solver.dispatch vf m func p eps_opt op mi sbe dp = Solver.Rejected r t -> r = None.
Proof.
  unfold Solver.dispatch.
  destruct (negb _); [congruence|].
  destruct (Solver.mem m Solver.linear_methods); [discriminate|].
  destruct (vf func); [congruence|].
  destruct (Solver.validate_parameters m p); [congruence|].
  destruct (Solver.mem m ["Bisection"; "False Position"]); [discriminate|].
  destruct (String.eqb m "Fixed Point"); [discriminate|].
  destruct (String.eqb m "Newton-Raphson"); discriminate.
Qed.

Lemma dispatch_invoke_method vf m func p eps_opt op mi sbe dp c :
  Solver.dispatch vf m func p eps_opt op mi sbe dp = Solver.Invoke c ->
  Solver.mem m Solver.methods = true.
Proof.
  unfold Solver.dispatch.
  destruct (Solver.mem m Solver.methods); [reflexivity|discriminate].
Qed.

Lemma methods_nonempty m : Solver.mem m Solver.methods = true -> String.eqb m "" = false.
Proof.
  intros Hm; destruct (String.eqb m "") eqn:E; [|reflexivity].
  apply String.eqb_eq in E; subst m; discriminate.
Qed.

(** Through [Solver.solve], Fixed Point never returns a root and never
    writes the history; once the function and parameters are accepted,
    the answer is the row ["Solver error: "] followed by the [TypeError]
    the unknown keyword [auto_generate_g] raises. *)
Theorem solver_fixed_point_fails `{PyFormat} cmp h now func p eps_opt op mi sbe dp :
  (exists t, SolverCall.solve cmp h now "Fixed Point" func p eps_opt op mi sbe dp
             = Some ((None, t), h)) /\
  (SolverCall.validate_function cmp func = None ->
   Solver.validate_parameters "Fixed Point" p = None ->
   SolverCall.solve cmp h now "Fixed Point" func p eps_opt op mi sbe dp
   = Some ((None, [[("Error", CStr ("Solver error: " ++ py_exn TypeError))]]), h)).
Proof.
  unfold SolverCall.solve, Solver.dispatch; cbn -[Solver.validate_parameters py_exn].
  split.
  - destruct (SolverCall.validate_function cmp func); [eexists; reflexivity|].
    destruct (Solver.validate_parameters _ p); eexists; reflexivity.
  - intros -> ->; reflexivity.
Qed.

(** Through [Solver.solve], an accepted Newton-Raphson request always
    returns an empty trace. *)
Theorem solver_newton_empty_trace `{PyFormat} cmp h now func p eps_opt op mi sbe dp :
  SolverCall.validate_function cmp func = None ->
  Solver.validate_parameters "Newton-Raphson" p = None ->
  exists r h', SolverCall.solve cmp h now "Newton-Raphson" func p eps_opt op mi sbe dp
               = Some ((r, []), h').
Proof.
  intros Hv Hp.
  unfold SolverCall.solve, Solver.dispatch; cbn -[Solver.validate_parameters].
  rewrite Hv, Hp; cbn [SolverCall.call_method].
  destruct (SolverCall.nr_functions cmp func) as [f f'].
  match goal with
  | |- context [NewtonRaphson.solve ?a ?b ?c ?d ?e ?g ?i ?j ?k ?l ?m] =>
      pose proof (nr_solve_shape a b c d e g i j k l m) as Hi;
      destruct (fst (NewtonRaphson.solve a b c d e g i j k l m)) as [rt its st ms tb]
  end.
  unfold nr_shape in Hi; cbn [NewtonRaphson.iterations] in Hi.
  destruct its; [|discriminate].
  destruct rt; eexists; eexists; reflexivity.
Qed.

Lemma for_range_zero {St Out : Type} (body : Z -> St -> res (step St Out)) i n s :
  n = O -> for_range body i n s = (Ok (inl s), O).
Proof. intros ->; reflexivity. Qed.

(** Through [Solver.solve], Bisection or False Position with
    [max_iter <= 0] on an accepted bracket whose bounds are not roots
    answers with the ["Solver error: "] row of [UnboundLocalError] and
    leaves the history unchanged. *)
Theorem solver_bracketing_no_iterations `{PyFormat} cmp h now m func p eps_opt op mi sbe dp
    f fa fb :
  Solver.mem m ["Bisection"; "False Position"] = true ->
  SolverCall.validate_function cmp func = None ->
  Solver.validate_parameters m p = None ->
  SolverCall.create_function cmp func = Ok f ->
  f (Solver.get_float "xl" p) = Ok fa -> f (Solver.get_float "xu" p) = Ok fb ->
  fgt (fmul fa fb) (Fin 0) = false ->
  flt (fabs fa) e_10 = false -> flt (fabs fb) e_10 = false ->
  (mi <= 0)%Z ->
  SolverCall.solve cmp h now m func p eps_opt op (Some mi) sbe dp
  = Some ((None, [[("Error", CStr ("Solver error: " ++ py_exn UnboundLocalError))]]), h).
Proof.
  intros Hm Hv Hp Hc Ha Hb Hs Ha' Hb' Hmi.
  assert (Hmeth : Solver.mem m Solver.methods = true).
  { unfold Solver.mem in *; simpl in *; repeat rewrite orb_true_iff in *.
    destruct Hm as [E|[E|E]]; [left; exact E|right; left; exact E|discriminate]. }
  assert (Hlin : Solver.mem m Solver.linear_methods = false).
  { unfold Solver.mem in *; simpl in *; repeat rewrite orb_true_iff in Hm.
    destruct Hm as [E|[E|E]]; [|apply String.eqb_eq in E; subst m; reflexivity|discriminate].
    apply String.eqb_eq in E; subst m; reflexivity. }
  unfold SolverCall.solve, Solver.dispatch.
  rewrite Hmeth, Hlin, Hv, Hp, Hm; cbn [negb SolverCall.call_method].
  rewrite Hc; cbn [bind].
  assert (Hz : Z.to_nat mi = O) by lia.
  destruct (String.eqb m "Bisection").
  - unfold Bisection.solve; rewrite Ha, Hb; cbn [bind]; rewrite Hs, Ha', Hb'.
    rewrite for_range_zero by exact Hz; reflexivity.
  - unfold FalsePosition.solve; rewrite Ha, Hb; cbn [bind]; rewrite Hs, Ha', Hb'.
    rewrite for_range_zero by exact Hz; reflexivity.
Qed.

(** [Solver.solve] with a non-empty function text appends exactly one
    entry (function, method, root, trace, time stamp) to the stored
    history when it returns a root, and leaves the history file unchanged
    when it returns none. *)
Theorem solver_history_update `{PyFormat} cmp h now m func p eps_opt op mi sbe dp :
  String.eqb func "" = false ->
  match SolverCall.solve cmp h now m func p eps_opt op mi sbe dp with
  | Some ((Some x, t), h') =>
      fst (History.load_history h')
      = app (fst (History.load_history h)) [History.Entry (History.mkEntry func m x t now)]
  | Some ((None, _), h') => h' = h
  | None => True
  end.
Proof.
  intros Hf; unfold SolverCall.solve.
  destruct (Solver.dispatch _ _ _ _ _ _ _ _ _) as [r t| c |] eqn:Ed; [| |exact I].
  - rewrite (dispatch_rejected_none _ _ _ _ _ _ _ _ _ _ _ Ed); reflexivity.
  - destruct (SolverCall.call_method cmp func c) as [[[x|] t]|e]; try reflexivity.
    unfold History.save_solution, History.validate_solution_data.
    rewrite Hf, (methods_nonempty m (dispatch_invoke_method _ _ _ _ _ _ _ _ _ _ Ed)).
    destruct h; reflexivity.
Qed.

Lemma secant_body_some `{PyFormat} f eps op max_iter sbe dp i s :
  match Secant.body f eps op max_iter sbe dp i s with
  | Ok (Return o) => fst o <> None
  | _ => True
  end.
Proof.
  unfold Secant.body.
  destruct (flt _ _); [discriminate|].
  destruct (fdiv _ _) as [q|e]; cbn [bind]; [|exact I].
  destruct (f _) as [fn|e].
  - destruct (is_nan _ || is_inf _); [discriminate|].
    destruct (if flt _ _ then _ else _) as [er|e]; cbn [bind]; [|exact I].
    destruct (flt (fabs fn) e_10); [discriminate|].
    destruct (Secant.eps_stop _ _ _ _ _ _) as [[m|]|e]; cbn [bind]; (discriminate || exact I).
  - destruct (Secant.inner_caught e); [discriminate|exact I].
Qed.

(** Secant returns no root only together with its single
    ["An unexpected error occurred"] row. *)
Theorem secant_no_root_shape `{PyFormat} f xa xb eps op max_iter sbe dp :
  match fst (Secant.solve f xa xb eps op max_iter sbe dp) with
  | (None, t) =>
      exists e, t = [[("Error", CStr ("An unexpected error occurred: " ++ py_exn e));
                      ("Status", CStr "ERROR");
                      ("Details", CStr "Check your inputs and try again")]]
  | _ => True
  end.
Proof.
  unfold Secant.solve.
  assert (Hs : match fst (Secant.solve_try f xa xb eps op max_iter sbe dp) with
               | Ok o => fst o <> None | Err _ => True end).
  { unfold Secant.solve_try.
    destruct (let* a := f xa in _) as [[fa fb]|e]; [|exact I].
    destruct (flt (fabs fa) e_10); [discriminate|].
    destruct (flt (fabs fb) e_10); [discriminate|].
    match goal with
    | |- context [for_range ?bd ?i ?n ?s0] =>
        assert (Hinv := for_range_inv (fun _ => True) (fun o => fst o <> None) bd i n s0 I);
        destruct (for_range bd i n s0) as [r k]
    end.
    simpl in Hinv |- *.
    destruct r as [[s|o]|e]; [discriminate| |exact I].
    exact (Hinv (fun j t _ => secant_body_some _ _ _ _ _ _ j t)). }
  destruct (Secant.solve_try f xa xb eps op max_iter sbe dp) as [[[[x|] t]|e] k];
    simpl in Hs |- *; [exact I|congruence|eexists; reflexivity].
Qed.

Lemma slice_from_nonneg {A : Type} (l : list A) (a : Z) :
  (0 <= a)%Z -> History.slice_from l a = skipn (Z.to_nat a) l.
Proof.
  intros Ha; unfold History.slice_from.
  replace (a <? 0)%Z with false by (symmetry; apply Z.ltb_ge; lia).
  destruct (Z.le_ge_cases a (Z.of_nat (length l))) as [Hle|Hge].
  - rewrite Z.min_l by exact Hle; reflexivity.
  - rewrite Z.min_r by lia; rewrite Nat2Z.id.
    rewrite skipn_all, skipn_all2; [reflexivity|lia].
Qed.

Lemma slice_from_neg {A : Type} (l : list A) (a : Z) :
  (a < 0)%Z ->
  exists pre, l = app pre (History.slice_from l a) /\
    length (History.slice_from l a) = Nat.min (Z.to_nat (- a)) (length l).
Proof.
  intros Ha; unfold History.slice_from.
  replace (a <? 0)%Z with true by (symmetry; apply Z.ltb_lt; lia).
  set (k := Z.to_nat (Z.max 0 (Z.of_nat (length l) + a))).
  assert (Hk : Z.of_nat k = Z.max 0 (Z.of_nat (length l) + a)) by (unfold k; rewrite Z2Nat.id; lia).
  exists (firstn k l); split; [symmetry; apply firstn_skipn|].
  rewrite length_skipn; lia.
Qed.

(** [get_recent_solutions(limit)] returns [history[-limit:]]: for
    [limit > 0] the last [min(limit, n)] entries, for [limit = 0] the
    whole history, and for [limit < 0] the history without its first
    [-limit] entries. *)
Theorem history_recent_slice h limit :
  let l := fst (History.load_history h) in
  let r := fst (History.get_recent_solutions h limit) in
  ((0 < limit)%Z -> exists pre, l = app pre r /\ length r = Nat.min (Z.to_nat limit) (length l)) /\
  (limit = 0%Z -> r = l) /\
  ((limit < 0)%Z -> r = skipn (Z.to_nat (- limit)) l).
Proof.
  cbv zeta; unfold History.get_recent_solutions.
  destruct (History.load_history h) as [l h']; cbn [fst].
  destruct l as [|x l'].
  - split; [intros; exists []; split; [reflexivity|simpl; lia]|].
    split; [reflexivity|intros; destruct (Z.to_nat (- limit)); reflexivity].
  - split; [|split].
    + intros Hl; destruct (slice_from_neg (x :: l') (- limit) ltac:(lia)) as (pre & E & L).
      exists pre; split; [exact E|]; rewrite L; f_equal; lia.
    + intros ->; rewrite slice_from_nonneg by lia; reflexivity.
    + intros Hl; rewrite slice_from_nonneg by lia; reflexivity.
Qed.

Lemma history_recent_slice_witness :
  let l := [History.Foreign; History.Foreign; History.Foreign] in
  (exists pre, l = app pre (fst (History.get_recent_solutions (History.List l) 2)) /\
     length (fst (History.get_recent_solutions (History.List l) 2)) = Nat.min 2 3) /\
  fst (History.get_recent_solutions (History.List l) 0) = l /\
  fst (History.get_recent_solutions (History.List l) (-1)) = skipn 1 l.
Proof.
  cbv zeta.
  destruct (history_recent_slice (History.List [History.Foreign; History.Foreign; History.Foreign]) 2)
    as [P _].
  destruct (history_recent_slice (History.List [History.Foreign; History.Foreign; History.Foreign]) 0)
    as [_ [Z0 _]].
  destruct (history_recent_slice (History.List [History.Foreign; History.Foreign; History.Foreign]) (-1))
    as [_ [_ N]].
  split; [apply P; lia|split; [apply Z0; reflexivity|apply N; lia]].
Defined.

(** With a non-empty function and method, [save_solution] reports success
    and the history read back is the previous one with the new entry
    appended, so [get_recent_solutions(1)] returns exactly that entry; a
    file that cannot be decoded or does not hold a list is replaced by the
    one-entry list.  With an empty function or method nothing is written
    and [False] is returned. *)
Theorem history_save_roundtrip h func m root t now :
  let e := History.Entry (History.mkEntry func m root t now) in
  (History.validate_solution_data func m = true ->
     fst (History.save_solution h func m root t now) = true /\
     fst (History.load_history (snd (History.save_solution h func m root t now)))
       = app (fst (History.load_history h)) [e] /\
     fst (History.get_recent_solutions (snd (History.save_solution h func m root t now)) 1)
       = [e] /\
     (h = History.Undecodable \/ h = History.NotList ->
        snd (History.save_solution h func m root t now) = History.List [e])) /\
  (History.validate_solution_data func m = false ->
     History.save_solution h func m root t now = (false, h)).
Proof.
  cbv zeta; unfold History.save_solution; split; intros Hv; rewrite Hv; [|reflexivity].
  destruct (History.load_history h) as [l h'] eqn:El; cbn [fst snd History.load_history].
  split; [reflexivity|split; [reflexivity|split]].
  - unfold History.get_recent_solutions; cbn [History.load_history].
    destruct l as [|x l'] eqn:E; [reflexivity|].
    rewrite <- E.
    destruct (app l _) as [|y l''] eqn:E2; [destruct l; discriminate|rewrite <- E2].
    unfold History.slice_from.
    rewrite length_app; simpl length.
    replace (Z.max 0 (Z.of_nat (length l + 1) + - (1)))%Z with (Z.of_nat (length l)) by lia.
    change ((- (1) <? 0)%Z) with true; cbv iota; cbn [fst].
    rewrite Nat2Z.id, skipn_app, skipn_all, Nat.sub_diag; reflexivity.
  - intros [-> | ->]; injection El as <- _; reflexivity.
Qed.

(** After [clear_history], which always reports success, the history
    reads back as empty and [get_recent_solutions] returns nothing. *)
Theorem history_clear_empties h limit :
  fst (History.clear_history h) = true /\
  fst (History.load_history (snd (History.clear_history h))) = [] /\
  fst (History.get_recent_solutions (snd (History.clear_history h)) limit) = [].
Proof. destruct h; repeat split; reflexivity. Qed.

(** ** Witnesses of the properties above *)

Lemma nr_check_convergence_props_witness :
  NewtonRaphson.nr_check_convergence NaN (Fin 1) "<=" = false /\
  NewtonRaphson.nr_check_convergence (Fin 2) (Fin 1) ">"
  = check_convergence (Fin 2) (Fin 1) ">".
Proof.
  split; [apply (proj1 nr_check_convergence_props); reflexivity|].
  apply (proj1 (proj2 nr_check_convergence_props)); reflexivity.
Defined.

Lemma solver_fixed_point_fails_witness :
  @SolverCall.solve sample_format sq4_compiler History.Missing "t0" "Fixed Point" "x**2 - 4"
    [("xi", Solver.PyFloat (Fin 1))] None "<=" None None None
  = Some ((None, [[("Error", CStr ("Solver error: " ++ @py_exn sample_format TypeError))]]),
          History.Missing).
Proof. apply (proj2 (@solver_fixed_point_fails sample_format _ _ _ _ _ _ _ _ _ _)); reflexivity. Defined.

Lemma solver_newton_empty_trace_witness :
  exists r h', @SolverCall.solve sample_format sq4_compiler History.Missing "t0" "Newton-Raphson"
                 "x**2 - 4" [("xi", Solver.PyFloat (Fin 1))] None "<=" None None None
               = Some ((r, []), h').
Proof. apply solver_newton_empty_trace; reflexivity. Defined.

Lemma solver_bracketing_no_iterations_witness :
  @SolverCall.solve sample_format sq4_compiler History.Missing "t0" "Bisection" "x**2 - 4"
    [("xl", Solver.PyFloat (Fin 0)); ("xu", Solver.PyFloat (Fin 3))] None "<=" (Some 0%Z)
    None None
  = Some ((None, [[("Error", CStr ("Solver error: " ++ @py_exn sample_format UnboundLocalError))]]),
          History.Missing).
Proof.
  apply (@solver_bracketing_no_iterations sample_format _ _ _ _ _ _ _ _ _ _ _ sq4
           (Fin (-4)) (Fin 5)); reflexivity || lia.
Defined.

Lemma solver_history_update_witness :
  match @SolverCall.solve sample_format sq4_compiler History.Missing "t0" "Bisection" "x**2 - 4"
          [("xl", Solver.PyFloat (Fin 0)); ("xu", Solver.PyFloat (Fin 3))] None "<=" (Some 5%Z)
          None None with
  | Some ((Some x, t), h') =>
      fst (History.load_history h')
      = app (fst (History.load_history History.Missing))
          [History.Entry (History.mkEntry "x**2 - 4" "Bisection" x t "t0")]
  | Some ((None, _), h') => h' = History.Missing
  | None => True
  end.
Proof. apply solver_history_update; reflexivity. Defined.

Lemma history_save_roundtrip_witness :
  fst (History.get_recent_solutions
         (snd (History.save_solution History.Undecodable "x**2 - 4" "Bisection" (Fin 2) [] "t0"))
         1)
  = [History.Entry (History.mkEntry "x**2 - 4" "Bisection" (Fin 2) [] "t0")] /\
  History.save_solution History.Undecodable "" "Bisection" (Fin 2) [] "t0"
  = (false, History.Undecodable).
Proof.
  split.
  - apply (proj1 (history_save_roundtrip History.Undecodable "x**2 - 4" "Bisection" (Fin 2) []
                    "t0")); reflexivity.
  - apply (proj2 (history_save_roundtrip History.Undecodable "" "Bisection" (Fin 2) [] "t0"));
      reflexivity.
Defined.
